(** * A file-archiving chat bot: its logger, its file pipeline and its
      callback handlers, embedded from [logger.mts] and the bot's main module.

    The development is organised as the program is:
    - [JS]      the pieces of the JavaScript and Node runtime the program
                calls (strings, [parseInt], [util.format], [path.extname]);
    - [Eff]     the effects of a handler: a state-and-exception monad that
                also records the calls made to the outside world;
    - [Logger]  [logger.mts];
    - [Bot]     the main module: configuration, [getFileIds], [processFile],
                [escape], the three handlers and the routing of callbacks;
    - [LoggerObs], [BotObs]  what the statements are written with, and the
                sample inputs;
    - [Startup] the reading of the environment at start-up ([getEnv]);
    - [MoreObs] further vocabulary and sample inputs;
    - [StringFacts], [LoggerFacts], [BotFacts]  the proofs;
    - [PrettyFacts], [LoggerMore], [BotMore], [StartupFacts]  further
                properties of the same code.

    Numbers are modelled as [Z]: every JavaScript number the program handles
    is an integer (identifiers, sizes, counters, epoch times) and such
    integers are exact in a double below 2^53. Strings are sequences of
    bytes; the characters the program tests or replaces are ASCII. *)

From Stdlib Require Import ZArith Ascii String List Lia.
From stdpp Require Import base option list gmap strings pretty.

Local Open Scope Z_scope.

(* ===================================================================== *)
(** * The runtime                                                          *)
(* ===================================================================== *)

Module JS.

(** A JavaScript value, as far as the program interpolates or formats one:
    a string or an (integer) number. *)
Inductive jsval :=
| JStr (s : string)
| JNum (n : Z).

(** [String(v)], also what a template literal applies to a hole. An integer
    is printed in decimal digits, as JavaScript prints one below 10^21; the
    integers of the program (identifiers, counters) are below 2^53. *)
Definition js_String (v : jsval) : string :=
  match v with
  | JStr s => s
  | JNum n => pretty n
  end.

Definition code_of (c : ascii) : Z := Z.of_N (N_of_ascii c).

Definition char_eqb (a b : ascii) : bool := Ascii.eqb a b.

(** ASCII case mapping; every string the program maps is ASCII (a level
    name, the serialisation of a URL). *)
Definition lower_char (c : ascii) : ascii :=
  let n := code_of c in
  if (65 <=? n) && (n <=? 90) then ascii_of_N (Z.to_N (n + 32)) else c.

Definition upper_char (c : ascii) : ascii :=
  let n := code_of c in
  if (97 <=? n) && (n <=? 122) then ascii_of_N (Z.to_N (n - 32)) else c.

Fixpoint map_chars (f : ascii -> ascii) (s : string) : string :=
  match s with
  | EmptyString => EmptyString
  | String c r => String (f c) (map_chars f r)
  end.

Definition toLowerCase : string -> string := map_chars lower_char.
Definition toUpperCase : string -> string := map_chars upper_char.

(** [s.replace(/c/g, by)] for a one-character pattern [c] and a replacement
    without [$]. *)
Fixpoint replace_all (c : ascii) (by_ : string) (s : string) : string :=
  match s with
  | EmptyString => EmptyString
  | String x r =>
      if char_eqb x c then by_ +:+ replace_all c by_ r
      else String x (replace_all c by_ r)
  end.

(** [s.split(sep)] for a one-character separator: never empty, [""] gives
    [[""]]. *)
Fixpoint split (sep : ascii) (s : string) : list string :=
  match s with
  | EmptyString => [EmptyString]
  | String x r =>
      if char_eqb x sep then EmptyString :: split sep r
      else match split sep r with
           | h :: t => String x h :: t
           | [] => [String x EmptyString]
           end
  end.

(** [xs.join(sep)]. *)
Fixpoint join (sep : string) (xs : list string) : string :=
  match xs with
  | [] => EmptyString
  | [x] => x
  | x :: r => x +:+ sep +:+ join sep r
  end.

(** ** [parseInt(string, radix)]

    The result is [None] for NaN. Two limits of this transcription: the
    white space skipped is the ASCII part of StrWhiteSpaceChar (a string that
    starts with U+00A0 or another non-ASCII space is read as NaN here), and
    the value is the exact integer of the digits, which is the code's result
    for an absolute value below 2^53 only (beyond, the code rounds to a
    double). *)
Definition is_space (c : ascii) : bool :=
  let n := code_of c in
  ((9 <=? n) && (n <=? 13)) || (n =? 32).

Fixpoint trim_start (s : string) : string :=
  match s with
  | EmptyString => EmptyString
  | String c r => if is_space c then trim_start r else s
  end.

Definition digit_of (c : ascii) : option Z :=
  let n := code_of c in
  if (48 <=? n) && (n <=? 57) then Some (n - 48)
  else if (97 <=? n) && (n <=? 122) then Some (n - 87)
  else if (65 <=? n) && (n <=? 90) then Some (n - 55)
  else None.

(** The value of the longest prefix of radix-[R] digits, [acc] so far;
    [None] while no digit was read. *)
Fixpoint digits_prefix (R : Z) (s : string) (acc : option Z) : option Z :=
  match s with
  | EmptyString => acc
  | String c r =>
      match digit_of c with
      | Some d =>
          if d <? R then digits_prefix R r (Some (default 0 acc * R + d))
          else acc
      | None => acc
      end
  end.

Definition ToInt32 (z : Z) : Z := (z + 2 ^ 31) mod 2 ^ 32 - 2 ^ 31.

Definition strip_sign (s : string) : Z * string :=
  match s with
  | String c r =>
      if char_eqb c "-" then (-1, r)
      else if char_eqb c "+" then (1, r)
      else (1, s)
  | EmptyString => (1, s)
  end.

Definition strip_0x (s : string) : option string :=
  match s with
  | String z (String x r) =>
      if char_eqb z "0" && (char_eqb x "x" || char_eqb x "X") then Some r
      else None
  | _ => None
  end.

Definition parseInt (input : string) (radix : Z) : option Z :=
  let '(sign, body) := strip_sign (trim_start input) in
  let R := ToInt32 radix in
  if negb (R =? 0) && ((R <? 2) || (36 <? R)) then None
  else
    let stripPrefix := (R =? 0) || (R =? 16) in
    let R := if R =? 0 then 10 else R in
    let '(R, body) :=
      if stripPrefix then
        match strip_0x body with
        | Some r => (16, r)
        | None => (R, body)
        end
      else (R, body) in
    match digits_prefix R body None with
    | None => None
    | Some v => Some (sign * v)
    end.

(** [xs.map(f)]: the callback receives the element and its index (and the
    array, which no callback here reads). *)
Fixpoint map_indexed {A B} (f : A -> Z -> B) (i : Z) (xs : list A) : list B :=
  match xs with
  | [] => []
  | x :: r => f x i :: map_indexed f (i + 1) r
  end.

Definition Array_map {A B} (f : A -> Z -> B) (xs : list A) : list B :=
  map_indexed f 0 xs.

(** ** [n.toString(16)] for a non-negative integer. *)
Definition hex_digit (d : Z) : ascii :=
  if d <? 10 then ascii_of_N (Z.to_N (48 + d))
  else ascii_of_N (Z.to_N (87 + d)).

Fixpoint hex_go (fuel : nat) (n : Z) (acc : string) : string :=
  match fuel with
  | O => acc
  | S f =>
      let acc' := String (hex_digit (n mod 16)) acc in
      if n / 16 =? 0 then acc' else hex_go f (n / 16) acc'
  end.

Definition toString16 (n : Z) : string :=
  hex_go (S (Z.to_nat (Z.log2 n))) n EmptyString.

(** ** [util.format(format, ...args)]

    The directives the program uses: [%s], [%d] and [%%]. With no argument
    the format is returned untouched; a directive with no argument left is
    kept as text; arguments left over are appended after a space each.
    ([%d] of a string goes through [Number] in Node; the program only passes
    numbers to [%d], and the model prints NaN for a string.) *)
Definition format_d (v : jsval) : string :=
  match v with
  | JNum n => pretty n
  | JStr _ => "NaN"
  end.

Fixpoint format_rest (args : list jsval) : string :=
  match args with
  | [] => EmptyString
  | v :: r => " " +:+ js_String v +:+ format_rest r
  end.

Fixpoint format_go (fmt : string) (args : list jsval) : string :=
  match fmt with
  | EmptyString => format_rest args
  | String c t =>
      if char_eqb c "%" then
        match t with
        | EmptyString => String c (format_rest args)
        | String d rest =>
            if char_eqb d "%" then String "%" (format_go rest args)
            else match args with
                 | [] => String c (format_go t args)
                 | v :: args' =>
                     if char_eqb d "s" then js_String v +:+ format_go rest args'
                     else if char_eqb d "d" then format_d v +:+ format_go rest args'
                     else String c (format_go t args)
                 end
        end
      else String c (format_go t args)
  end.

Definition util_format (fmt : string) (args : list jsval) : string :=
  match args with
  | [] => fmt
  | _ => format_go fmt args
  end.

(** ** [path.extname(path)] (POSIX)

    Node scans the path from its end; the loop below is that scan, with its
    five variables, and [extname] the test and the slice after it. *)
Record ext_scan := {
  startDot : Z;
  startPart : Z;
  end_ : Z;
  matchedSlash : bool;
  preDotState : Z
}.

Definition ext_scan0 : ext_scan :=
  {| startDot := -1; startPart := 0; end_ := -1; matchedSlash := true;
     preDotState := 0 |}.

Definition char_at (i : nat) (s : string) : ascii :=
  match String.get i s with
  | Some c => c
  | None => zero
  end.

(** [ext_loop path n st]: the iterations for [i = n-1] down to [0]. *)
Fixpoint ext_loop (path : string) (n : nat) (st : ext_scan) : ext_scan :=
  match n with
  | O => st
  | S i =>
      let code := char_at i path in
      if char_eqb code "/" then
        if negb (matchedSlash st) then
          {| startDot := startDot st; startPart := Z.of_nat i + 1;
             end_ := end_ st; matchedSlash := matchedSlash st;
             preDotState := preDotState st |}
        else ext_loop path i st
      else
        let st1 :=
          if end_ st =? -1 then
            {| startDot := startDot st; startPart := startPart st;
               end_ := Z.of_nat i + 1; matchedSlash := false;
               preDotState := preDotState st |}
          else st in
        let st2 :=
          if char_eqb code "." then
            if startDot st1 =? -1 then
              {| startDot := Z.of_nat i; startPart := startPart st1;
                 end_ := end_ st1; matchedSlash := matchedSlash st1;
                 preDotState := preDotState st1 |}
            else if negb (preDotState st1 =? 1) then
              {| startDot := startDot st1; startPart := startPart st1;
                 end_ := end_ st1; matchedSlash := matchedSlash st1;
                 preDotState := 1 |}
            else st1
          else if negb (startDot st1 =? -1) then
            {| startDot := startDot st1; startPart := startPart st1;
               end_ := end_ st1; matchedSlash := matchedSlash st1;
               preDotState := -1 |}
          else st1 in
        ext_loop path i st2
  end.

Definition extname (path : string) : string :=
  let st := ext_loop path (String.length path) ext_scan0 in
  if (startDot st =? -1) || (end_ st =? -1) || (preDotState st =? 0)
     || ((preDotState st =? 1) && (startDot st =? end_ st - 1)
         && (startDot st =? startPart st + 1))
  then EmptyString
  else String.substring (Z.to_nat (startDot st))
         (Z.to_nat (end_ st - startDot st)) path.

End JS.

Import JS.

(* ===================================================================== *)
(** * Effects                                                              *)
(* ===================================================================== *)

Module Eff.

(** A thrown or rejected value: its [code] property, if it has one, and
    what [util.inspect] prints for it. *)
Record JsError := {
  err_code : option string;
  err_inspect : string
}.

Inductive level := Debug | Info | Warn | Error.

Definition level_name (l : level) : string :=
  match l with
  | Debug => "debug"
  | Info => "info"
  | Warn => "warn"
  | Error => "error"
  end.

(** A [Date]: its epoch milliseconds and its ISO-8601 rendering. *)
Record Date := {
  getTime : Z;
  toISOString : string
}.

(** The result of [path.join(dir, name)], kept as its two operands. *)
Inductive fs_path := path_join (dir name : string).

(** A callback button of an inline keyboard: its caption and its payload. *)
Record Button := {
  btn_text : string;
  btn_data : string
}.

Record SendExtra := {
  reply_to_message_id : option Z;
  allow_sending_without_reply : option bool;
  parse_mode : option string;
  reply_markup : option (list (list Button))
}.

Record AnswerExtra := {
  show_alert : option bool;
  cache_time : option Z
}.

(** The calls a handler makes to the console, the file system, the network
    and the chat platform, with their arguments in call order. *)
Inductive Event :=
| Console (l : level) (line : string)
| GetFileLink (fileId : string)
| FetchTo (url : string) (dest : fs_path)
| SendMessage (chatId : jsval) (text : string) (extra : SendExtra)
| AnswerCbQuery (text : string) (extra : option AnswerExtra)
| FsAccess (p : fs_path) (mode : Z)
| FsRm (p : fs_path)
| EditMessageText (chatId : jsval) (messageId : option Z)
    (inlineMessageId : option string) (text : string)
| DeleteMessage (chatId : jsval) (messageId : Z).

(** The world a handler runs in. The first group is what the outside
    answers; a handler only reads it. The second group is the state of the
    process: how many times the clock was read, and [lastThreadIds], the map
    of [logger.mts]. *)
Record World := {
  env_DEBUG : option string;
  clock : nat -> Date;
  access_result : fs_path -> Z -> option JsError;
  rm_result : fs_path -> option JsError;
  getFileLink_result : string -> JsError + string;
  randomInt_result : Z -> Z -> Z;
  fetch_result : string -> fs_path -> option JsError;
  clock_reads : nat;
  lastThreadIds : gmap string Z
}.

Definition with_clock_reads (n : nat) (w : World) : World :=
  {| env_DEBUG := env_DEBUG w; clock := clock w;
     access_result := access_result w; rm_result := rm_result w;
     getFileLink_result := getFileLink_result w;
     randomInt_result := randomInt_result w; fetch_result := fetch_result w;
     clock_reads := n; lastThreadIds := lastThreadIds w |}.

Definition with_lastThreadIds (m : gmap string Z) (w : World) : World :=
  {| env_DEBUG := env_DEBUG w; clock := clock w;
     access_result := access_result w; rm_result := rm_result w;
     getFileLink_result := getFileLink_result w;
     randomInt_result := randomInt_result w; fetch_result := fetch_result w;
     clock_reads := clock_reads w; lastThreadIds := m |}.

Inductive Completion (A : Type) :=
| Normal (a : A)
| Thrown (e : JsError).
Arguments Normal {A} a.
Arguments Thrown {A} e.

(** One run: how it completed, the world it left, the calls it made. *)
Record Run (A : Type) := mkRun {
  completion : Completion A;
  final : World;
  calls : list Event
}.
Arguments mkRun {A} _ _ _.
Arguments completion {A} _.
Arguments final {A} _.
Arguments calls {A} _.

Definition M (A : Type) : Type := World -> Run A.

Definition ret {A} (a : A) : M A := fun w => mkRun (Normal a) w [].

Definition bind {A B} (m : M A) (k : A -> M B) : M B :=
  fun w =>
    match m w with
    | mkRun (Normal a) w1 es1 =>
        match k a w1 with
        | mkRun c w2 es2 => mkRun c w2 (es1 ++ es2)
        end
    | mkRun (Thrown e) w1 es1 => mkRun (Thrown e) w1 es1
    end.

Definition throw {A} (e : JsError) : M A := fun w => mkRun (Thrown e) w [].

(** [try { m } catch (e) { h e }]. *)
Definition try_catch {A} (m : M A) (h : JsError -> M A) : M A :=
  fun w =>
    match m w with
    | mkRun (Normal a) w1 es1 => mkRun (Normal a) w1 es1
    | mkRun (Thrown e) w1 es1 =>
        match h e w1 with
        | mkRun c w2 es2 => mkRun c w2 (es1 ++ es2)
        end
    end.

Definition emit (e : Event) : M unit := fun w => mkRun (Normal tt) w [e].

Definition read {A} (f : World -> A) : M A := fun w => mkRun (Normal (f w)) w [].

Definition modify (f : World -> World) : M unit :=
  fun w => mkRun (Normal tt) (f w) [].

(** A call whose answer [o] the outside gives: [None] resolves, [Some e]
    rejects with [e]. *)
Definition settle (o : option JsError) : M unit :=
  match o with
  | None => ret tt
  | Some e => throw e
  end.

(** [new Date()]: the next reading of the clock. *)
Definition new_Date : M Date :=
  fun w => mkRun (Normal (clock w (clock_reads w)))
             (with_clock_reads (S (clock_reads w)) w) [].

(** [Date.now()]. *)
Definition Date_now : M Z := bind new_Date (fun d => ret (getTime d)).

End Eff.

Import Eff.

(** [M] with stdpp's monad notations: [x ← m; k] and [m;; k]. *)
Global Instance M_ret : MRet M := @Eff.ret.
Global Instance M_bind : MBind M := fun A B k m => Eff.bind m k.

(* ===================================================================== *)
(** * logger.mts                                                           *)
(* ===================================================================== *)

Module Logger.

(** [LogFunc]: a message (a string in every call of the program) and the
    optional parameters. *)
Definition LogFunc : Type := string -> list jsval -> M unit.

(** [console[level]]: formats its arguments and writes the line. *)
Definition console (l : level) : LogFunc :=
  fun fmt args => emit (Console l (util_format fmt args)).

Definition makeLogger (callFunc : LogFunc) (stopFunc : option (M bool))
    (format : string) (patterns : list jsval) : LogFunc :=
  fun message optionalParams =>
    stop ← match stopFunc with
           | Some f => f
           | None => mret false
           end;
    if (stop : bool) then mret tt
    else callFunc (format +:+ " %s")
           (patterns ++ [JStr (util_format message optionalParams)]).

Definition internalLog (l : level) (stopFunc : option (M bool)) : M LogFunc :=
  now ← new_Date;
  mret (makeLogger (console l) stopFunc "[%s] [%s]"
         [JStr (toISOString now); JStr (toUpperCase (level_name l))]).

Record Logger := {
  debug : LogFunc;
  info : LogFunc;
  warn : LogFunc;
  error : LogFunc
}.

(** [!process.env.DEBUG], evaluated at each call. *)
Definition debug_off : M bool :=
  read (fun w => match env_DEBUG w with
                 | None => true
                 | Some s => if decide (s = "") then true else false
                 end).

(** The initialiser of [baseLogger], its fields in source order. *)
Definition init_baseLogger : M Logger :=
  d ← internalLog Debug (Some debug_off);
  i ← internalLog Info None;
  w ← internalLog Warn None;
  e ← internalLog Error None;
  mret {| debug := d; info := i; warn := w; error := e |}.

Definition getLogger (name : string) (callFunc : LogFunc) : LogFunc :=
  makeLogger callFunc None "[%s]" [JStr name].

Definition scoped (name : string) (baseLogger : Logger) : Logger :=
  {| debug := getLogger name (debug baseLogger);
     info := getLogger name (info baseLogger);
     warn := getLogger name (warn baseLogger);
     error := getLogger name (error baseLogger) |}.

(** [createThread]; [baseLogger] is the module constant it closes over. *)
Definition createThread (baseLogger : Logger) (threadName : string) : M Logger :=
  id ← read (fun w => default 0 (lastThreadIds w !! threadName) + 1);
  modify (fun w => with_lastThreadIds (<[threadName := id]> (lastThreadIds w)) w);;
  let name := util_format "%s:%d" [JStr threadName; JNum id] in
  mret (scoped name baseLogger).

(** What the module holds once loaded: [baseLogger] and the export [main]
    ([lastThreadIds], the third constant, lives in the world). *)
Record Module_ := {
  baseLogger : Logger;
  main : Logger
}.

Definition load : M Module_ :=
  b ← init_baseLogger;
  mret {| baseLogger := b; main := scoped "main" b |}.

End Logger.

(* ===================================================================== *)
(** * The main module                                                      *)
(* ===================================================================== *)

Module Bot.

Import Logger.

(** ** Configuration *)

(** The required environment variables ([getEnv] exits the process when one
    is missing or empty, before anything below runs). *)
Record Env := {
  BOT_TOKEN : string;
  FILE_SAVE_PATH : string;
  DOMAIN : string;
  ENABLE_GROUPS : string;
  INFO_CHANNEL : string
}.

Fixpoint strip_prefix (p s : string) : option string :=
  match p with
  | EmptyString => Some s
  | String a p' =>
      match s with
      | String b s' => if char_eqb a b then strip_prefix p' s' else None
      | EmptyString => None
      end
  end.

Definition savePath (e : Env) : string := FILE_SAVE_PATH e.

(** [domain.match(/^https?:\/\//) ? domain : 'https://' + domain]. *)
Definition domain (e : Env) : string :=
  let d := DOMAIN e in
  match strip_prefix "http://" d, strip_prefix "https://" d with
  | None, None => "https://" +:+ d
  | _, _ => d
  end.

(** [getEnv('ENABLE_GROUPS').split(',').map(Number.parseInt)]: [map] hands
    each element and its index to [parseInt], which reads the index as the
    radix. An entry is [None] when it is NaN. *)
Definition enableGroups (e : Env) : list (option Z) :=
  Array_map parseInt (split "," (ENABLE_GROUPS e)).

Definition infoChannel (e : Env) : string := INFO_CHANNEL e.

(** [xs.includes(v)] for a number [v] that is not NaN. *)
Definition includes (xs : list (option Z)) (v : Z) : bool :=
  existsb (fun x => bool_decide (x = Some v)) xs.

(** ** Messages *)

(** A photo size, sticker, audio, voice, video or document of a message.
    [members_json] is the JSON text of the object's members, as
    [JSON.stringify] prints them. *)
Record DocumentAble := {
  file_id : string;
  file_unique_id : string;
  file_size : option Z;
  members_json : string
}.

Inductive FileType := photo | sticker | audio | voice | video | document.

Definition FileType_name (k : FileType) : string :=
  match k with
  | photo => "photo"
  | sticker => "sticker"
  | audio => "audio"
  | voice => "voice"
  | video => "video"
  | document => "document"
  end.

(** [{ file_type: k, ...obj }]. *)
Record File := {
  file_type : FileType;
  file_obj : DocumentAble
}.

(** A message; an attachment field is [None] when the key is not in the
    object. *)
Record Message := {
  message_id : Z;
  date : Z;
  chat_id : Z;
  from_id : option Z;
  sender_chat_id : option Z;
  msg_photo : option (list DocumentAble);
  msg_sticker : option DocumentAble;
  msg_audio : option DocumentAble;
  msg_voice : option DocumentAble;
  msg_video : option DocumentAble;
  msg_document : option DocumentAble
}.

(** ** getFileIds *)

(** A number in a condition: [undefined], [0] are false. *)
Definition truthy (o : option Z) : bool :=
  match o with
  | Some n => negb (n =? 0)
  | None => false
  end.

(** [o || 0]. *)
Definition or_0 (o : option Z) : Z :=
  match o with
  | Some n => n
  | None => 0
  end.

(** One iteration of the loop over [message.photo], on [(sz, tmp)]. *)
Definition photo_step (st : Z * option DocumentAble) (p : DocumentAble)
  : Z * option DocumentAble :=
  let '(sz, tmp) := st in
  if match tmp with None => true | Some _ => false end
     || (truthy (file_size p) && (sz <? or_0 (file_size p)))
  then (or_0 (file_size p), Some p)
  else st.

Definition largest_photo (photos : list DocumentAble) : option DocumentAble :=
  snd (fold_left photo_step photos (0, None)).

Definition message_key (k : FileType) (m : Message) : option DocumentAble :=
  match k with
  | photo => None
  | sticker => msg_sticker m
  | audio => msg_audio m
  | voice => msg_voice m
  | video => msg_video m
  | document => msg_document m
  end.

Fixpoint first_key (keys : list FileType) (m : Message) : option File :=
  match keys with
  | [] => None
  | k :: r =>
      match message_key k m with
      | Some f => Some {| file_type := k; file_obj := f |}
      | None => first_key r m
      end
  end.

(** [getFileIds]; [None] is the result [false]. *)
Definition getFileIds (m : Message) : option File :=
  match
    match msg_photo m with
    | Some photos =>
        match largest_photo photos with
        | Some tmp => Some {| file_type := photo; file_obj := tmp |}
        | None => None
        end
    | None => None
    end
  with
  | Some f => Some f
  | None => first_key [sticker; audio; voice; video; document] m
  end.

(** ** processFile *)

Definition getFileLink (fileId : string) : M string :=
  emit (GetFileLink fileId);;
  r ← read (fun w => getFileLink_result w fileId);
  match r with
  | inl e => throw e
  | inr href => mret href
  end.

Definition randomInt (min max : Z) : M Z :=
  read (fun w => randomInt_result w min max).

Definition fetchStream (href : string) (dest : fs_path) : M unit :=
  emit (FetchTo href dest);;
  r ← read (fun w => fetch_result w href dest);
  settle r.

Definition processFile (lg : Module_) (e : Env) (fileId : string) : M string :=
  href ← getFileLink fileId;
  n ← randomInt (16 ^ 8) (16 ^ 9);
  let fileName := toString16 n +:+ toLowerCase (extname href) in
  fetchStream href (path_join (savePath e) fileName);;
  info (main lg) ("file " +:+ fileName +:+ " is created.") [];;
  mret fileName.

(** ** escape *)

(** The three replacements applied to one interpolated value, in order. *)
Definition escape_value (s : string) : string :=
  replace_all ">" "&gt;"
    (replace_all "<" "&lt;"
       (replace_all "&" "&amp;" s)).

(** [xs.shift()] appended to a string: [undefined] prints as such. *)
Definition shift (xs : list string) : string * list string :=
  match xs with
  | [] => ("undefined", [])
  | x :: r => (x, r)
  end.

Fixpoint escape_loop (result : string) (cFormats : list string)
    (cPatterns : list jsval) : string :=
  match cPatterns with
  | [] => result +:+ join "" cFormats
  | p :: ps =>
      let '(f, fs) := shift cFormats in
      escape_loop ((result +:+ f) +:+ escape_value (js_String p)) fs ps
  end.

Definition escape (formats : list string) (patterns : list jsval) : string :=
  escape_loop "" formats patterns.

(** ** The message handler *)

Record MessageCtx := {
  ctx_from_id : Z;
  ctx_message : Message
}.

Definition dq : string := String (ascii_of_N 34) EmptyString.

(** [JSON.stringify({ file_type: k, ...obj })]. *)
Definition JSON_stringify (f : File) : string :=
  "{" +:+ dq +:+ "file_type" +:+ dq +:+ ":" +:+ dq
      +:+ FileType_name (file_type f) +:+ dq +:+ ","
      +:+ members_json (file_obj f) +:+ "}".

Definition callback_keyboard (text data : string) : option (list (list Button)) :=
  Some [[ {| btn_text := text; btn_data := data |} ]].

(** [ctx.sendMessage]: a message to the chat of the update. *)
Definition ctx_sendMessage (ctx : MessageCtx) (text : string) (extra : SendExtra)
  : M unit :=
  emit (SendMessage (JNum (chat_id (ctx_message ctx))) text extra).

Definition notification (e : Env) (ctx : MessageCtx) (file : File)
    (fileName : string) : string :=
  join (String (ascii_of_N 10) EmptyString)
    [ escape ["from: "; ""] [JNum (ctx_from_id ctx)];
      escape ["to: "; ""] [JNum (chat_id (ctx_message ctx))];
      escape ["file: <code>"; "</code> (unique: <code>"; "</code>)"]
        [JStr (file_id (file_obj file)); JStr (file_unique_id (file_obj file))];
      escape ["url: "; "/files/"; ""] [JStr (domain e); JStr fileName];
      escape ["raw: <code>"; "</code>"] [JStr (JSON_stringify file)] ].

Definition onMessage (lg : Module_) (e : Env) (ctx : MessageCtx) : M unit :=
  thread ← createThread (baseLogger lg) "onMessage";
  let m := ctx_message ctx in
  debug thread ("from: " +:+ pretty (ctx_from_id ctx) +:+ ", to: "
                +:+ pretty (chat_id m) +:+ ", messageId: "
                +:+ pretty (message_id m)) [];;
  if negb (includes (enableGroups e) (chat_id m)) then
    debug thread "not in enableGroups, skip." []
  else
    match getFileIds m with
    | None => debug thread "not file found, skip." []
    | Some file =>
        r ← try_catch
              (fileName ← processFile lg e (file_id (file_obj file));
               mret (Some fileName))
              (fun err =>
                 error thread (err_inspect err) [];;
                 ctx_sendMessage ctx "Fail to resolve file."
                   {| reply_to_message_id := Some (message_id m);
                      allow_sending_without_reply := Some false;
                      parse_mode := None; reply_markup := None |};;
                 mret None);
        match r with
        | None => mret tt
        | Some fileName =>
            debug thread ("file name: " +:+ fileName) [];;
            let message := notification e ctx file fileName in
            ctx_sendMessage ctx message
              {| reply_to_message_id := Some (message_id m);
                 allow_sending_without_reply := Some true;
                 parse_mode := Some "HTML";
                 reply_markup :=
                   callback_keyboard "Does file exist now?" ("exist:" +:+ fileName) |};;
            emit (SendMessage (JStr (infoChannel e)) message
              {| reply_to_message_id := None;
                 allow_sending_without_reply := None;
                 parse_mode := Some "HTML";
                 reply_markup :=
                   callback_keyboard "Delete it." ("remove:" +:+ fileName) |})
        end
    end.

(** ** The callback handlers *)

Record CallbackQuery := {
  cq_id : string;
  cq_from_id : Z;
  cq_message : option Message;
  cq_data : string
}.

Definition R_OK : Z := 4.
Definition W_OK : Z := 2.

(** [fs.promises.access]: the call, then its outcome. *)
Definition fs_access (p : fs_path) (mode : Z) : M unit :=
  emit (FsAccess p mode);;
  r ← read (fun w => access_result w p mode);
  settle r.

Definition fs_rm (p : fs_path) : M unit :=
  emit (FsRm p);;
  r ← read (fun w => rm_result w p);
  settle r.

(** [ctx.answerCbQuery]: the call. What becomes of the promise it returns
    (as of those of [editMessageText] and [deleteMessage]) is outside this
    development: a platform call is recorded when it is made and is not
    followed to its resolution or rejection. *)
Definition answerCbQuery (text : string) (extra : option AnswerExtra) : M unit :=
  emit (AnswerCbQuery text extra).

Definition no_cache : option AnswerExtra :=
  Some {| show_alert := None; cache_time := Some 0 |}.

(** Reading [.id] of [message.from!]: a [TypeError] when [from] is absent. *)
Definition TypeError_id : JsError :=
  {| err_code := None;
     err_inspect := "TypeError: Cannot read properties of undefined (reading 'id')" |}.

Definition describe_message (from : string) (m : Message) : string :=
  "{ from: " +:+ from +:+ ", to: " +:+ pretty (chat_id m)
    +:+ ", messageId: " +:+ pretty (message_id m) +:+ " }".

Definition action_line (cq : CallbackQuery) (raw file : string) : string :=
  "id: " +:+ cq_id cq +:+ ", from: " +:+ pretty (cq_from_id cq)
    +:+ ", rawMessage: " +:+ raw +:+ ", file: " +:+ file.

Definition onExist (lg : Module_) (e : Env) (cq : CallbackQuery) (file : string)
  : M unit :=
  thread ← createThread (baseLogger lg) "onAction:exist";
  raw ← match cq_message cq with
        | None => (mret "null" : M string)
        | Some m =>
            match from_id m with
            | Some i => mret (describe_message (pretty i) m)
            | None => throw TypeError_id
            end
        end;
  debug thread (action_line cq raw file) [];;
  try_catch
    (fs_access (path_join (savePath e) file) R_OK;;
     debug thread "file is exist." [];;
     answerCbQuery ("File " +:+ file +:+ " is exist.") no_cache)
    (fun err =>
       if bool_decide (err_code err = Some "ENOENT") then
         debug thread "file isn't exist." [];;
         answerCbQuery ("File " +:+ file +:+ " isn't exist.") no_cache
       else
         error thread (err_inspect err) [];;
         answerCbQuery "Fail to resolve file." no_cache).

Definition onRemove (lg : Module_) (e : Env) (cq : CallbackQuery) (file : string)
  : M unit :=
  thread ← createThread (baseLogger lg) "onAction:remove";
  let raw :=
    match cq_message cq with
    | None => "null"
    | Some m =>
        describe_message
          (match from_id m, sender_chat_id m with
           | Some i, _ => pretty i
           | None, Some c => pretty c
           | None, None => ""
           end) m
    end in
  debug thread (action_line cq raw file) [];;
  match cq_message cq with
  | None =>
      warn thread "message is null." [];;
      answerCbQuery "Internal error." no_cache
  | Some message =>
      (* [Some b]: go on with [isExist = b]; [None]: the handler returned *)
      probe ← try_catch
                (fs_access (path_join (savePath e) file) (Z.lor R_OK W_OK);;
                 mret (Some true))
                (fun err =>
                   if bool_decide (err_code err = Some "ENOENT") then
                     debug thread "file has been removed." [];;
                     mret (Some false)
                   else
                     error thread (err_inspect err) [];;
                     answerCbQuery ("Fail to resolve file " +:+ file +:+ " .") no_cache;;
                     mret None);
      match probe with
      | None => mret tt
      | Some isExist =>
          go_on ← (if (isExist : bool) then
                       try_catch
                         (fs_rm (path_join (savePath e) file);;
                          info (main lg) ("file " +:+ file +:+ " is removed.") [];;
                          mret true)
                         (fun err =>
                            error thread (err_inspect err) [];;
                            answerCbQuery ("Fail to resolve file " +:+ file +:+ " .") None;;
                            mret false)
                     else mret true);
          if (go_on : bool) then
            now ← Date_now;
            (if date message * 1000 <? now - 48 * 3600 * 1000 then
               debug thread "channel message is too old to delete." [];;
               emit (EditMessageText (JNum (cq_from_id cq)) (Some (chat_id message))
                       None ("File " +:+ file +:+ " has been removed."))
             else
               debug thread "delete message." [];;
               emit (DeleteMessage (JNum (chat_id message)) (message_id message)));;
            answerCbQuery
              (if (isExist : bool) then "Delete " +:+ file +:+ " success."
               else "File" +:+ file +:+ " has been removed.")
              (Some {| show_alert := Some true; cache_time := Some 3600 |})
          else mret tt
      end
  end.

(** ** Routing of callback queries

    [bot.action(/^verb:(?<file>[\da-f]+\.[a-z]+)$/, handler)]: the handler
    runs when the payload matches, with the group [file]. *)
Definition is_hex (c : ascii) : bool :=
  let n := code_of c in
  ((48 <=? n) && (n <=? 57)) || ((97 <=? n) && (n <=? 102)).

Definition is_lower (c : ascii) : bool :=
  let n := code_of c in
  (97 <=? n) && (n <=? 122).

Fixpoint all_chars (p : ascii -> bool) (s : string) : bool :=
  match s with
  | EmptyString => true
  | String c r => p c && all_chars p r
  end.

(** The rest of [s] after its longest prefix of [p]-characters, and whether
    that prefix is not empty. *)
Fixpoint skip_chars (p : ascii -> bool) (s : string) (seen : bool) : bool * string :=
  match s with
  | String c r => if p c then skip_chars p r true else (seen, s)
  | EmptyString => (seen, s)
  end.

(** [/^[\da-f]+\.[a-z]+$/]. *)
Definition is_file_name (s : string) : bool :=
  match skip_chars is_hex s false with
  | (true, String c ext) =>
      char_eqb c "." && negb (bool_decide (ext = "")) && all_chars is_lower ext
  | _ => false
  end.

Definition match_action (verb data : string) : option string :=
  match strip_prefix (verb +:+ ":") data with
  | Some file => if is_file_name file then Some file else None
  | None => None
  end.

(** A callback query goes to the first action whose pattern matches; with
    none, no handler runs. An error a handler throws reaches [bot.catch]. *)
Definition onCallbackQuery (lg : Module_) (e : Env) (cq : CallbackQuery) : M unit :=
  try_catch
    match match_action "exist" (cq_data cq) with
    | Some file => onExist lg e cq file
    | None =>
        match match_action "remove" (cq_data cq) with
        | Some file => onRemove lg e cq file
        | None => mret tt
        end
    end
    (fun err => error (main lg) (err_inspect err) []).

End Bot.

(* ===================================================================== *)
(** * Vocabulary of the statements                                         *)
(* ===================================================================== *)

Module LoggerObs.

Import Logger.

(** [op l lg]: the operation of severity [l] of a logger. *)
Definition op (l : level) (lg : Logger) : LogFunc :=
  match l with
  | Debug => debug lg
  | Info => info lg
  | Warn => warn lg
  | Error => error lg
  end.

(** The position of a severity among the four constructions of
    [init_baseLogger]. *)
Definition level_index (l : level) : nat :=
  match l with
  | Debug => 0
  | Info => 1
  | Warn => 2
  | Error => 3
  end%nat.

(** The base logger whose four operations were constructed at the dates
    [s Debug], [s Info], [s Warn], [s Error]. *)
Definition base_at (s : level -> Date) : Logger :=
  let mk l stop :=
    makeLogger (console l) stop "[%s] [%s]"
      [JStr (toISOString (s l)); JStr (toUpperCase (level_name l))] in
  {| debug := mk Debug (Some debug_off);
     info := mk Info None;
     warn := mk Warn None;
     error := mk Error None |}.

Definition module_at (s : level -> Date) : Module_ :=
  {| baseLogger := base_at s; main := scoped "main" (base_at s) |}.

(** The dates [load] reads when it runs in [w]. *)
Definition load_dates (w : World) (l : level) : Date :=
  clock w (clock_reads w + level_index l)%nat.

(** Whether a write of severity [l] is dropped in [w]. *)
Definition suppressed (l : level) (w : World) : bool :=
  match l with
  | Debug =>
      match env_DEBUG w with
      | None => true
      | Some s => if decide (s = "") then true else false
      end
  | _ => false
  end.

Definition level_tag (l : level) : string :=
  match l with
  | Debug => "DEBUG"
  | Info => "INFO"
  | Warn => "WARN"
  | Error => "ERROR"
  end.

(** The calls of one write: nothing, or one line on the console. *)
Definition written (l : level) (line : string) (w : World) : list Event :=
  if suppressed l w then [] else [Console l line].

(** The sequence number [createThread] gives to a label in [w]. *)
Definition next_id (threadName : string) (w : World) : Z :=
  default 0 (lastThreadIds w !! threadName) + 1.

(** Successive calls of [createThread], one per label of the list. *)
Fixpoint createThreads (base : Logger) (labels : list string) : M (list Logger) :=
  match labels with
  | [] => mret []
  | l :: r =>
      t ← createThread base l;
      ts ← createThreads base r;
      mret (t :: ts)
  end.

(** The numbers, among [ids], of the calls whose label is [l]. *)
Fixpoint numbers_of (l : string) (labels : list string) (ids : list Z) : list Z :=
  match labels, ids with
  | x :: r, k :: ks =>
      if decide (x = l) then k :: numbers_of l r ks else numbers_of l r ks
  | _, _ => []
  end.

Definition calls_of (l : string) (labels : list string) : nat :=
  length (filter (fun x => x = l) labels).

Definition is_console (e : Event) : bool :=
  match e with
  | Console _ _ => true
  | _ => false
  end.

(** The non-console calls of a run: what it asked of the file system, the
    network and the chat platform. *)
Definition external (es : list Event) : list Event :=
  List.filter (fun e => negb (is_console e)) es.

End LoggerObs.

Module BotObs.

Import Logger LoggerObs Bot.

(** The line a scoped logger writes for a message without parameters. *)
Definition line (s : level -> Date) (l : level) (name message : string) : string :=
  "[" +:+ toISOString (s l) +:+ "] [" +:+ level_tag l +:+ "] [" +:+ name +:+ "] "
      +:+ message.

(** The message the remove handler edits or deletes at its last stage:
    [now] is the reading of the clock the comparison makes. *)
Definition notice (cq : CallbackQuery) (message : Message) (file : string)
    (now : Z) : Event :=
  if date message * 1000 <? now - 48 * 3600 * 1000 then
    EditMessageText (JNum (cq_from_id cq)) (Some (chat_id message)) None
      ("File " +:+ file +:+ " has been removed.")
  else DeleteMessage (JNum (chat_id message)) (message_id message).

Definition long_cache : option AnswerExtra :=
  Some {| show_alert := Some true; cache_time := Some 3600 |}.

(** What the remove handler asks of the outside when the callback query
    carries its message, case by case on the two answers of the file
    system. *)
Definition remove_calls (e : Env) (cq : CallbackQuery) (message : Message)
    (file : string) (w : World) : list Event :=
  let p := path_join (savePath e) file in
  let now := getTime (clock w (clock_reads w)) in
  match access_result w p (Z.lor R_OK W_OK) with
  | None =>
      match rm_result w p with
      | None =>
          [FsAccess p (Z.lor R_OK W_OK); FsRm p; notice cq message file now;
           AnswerCbQuery ("Delete " +:+ file +:+ " success.") long_cache]
      | Some _ =>
          [FsAccess p (Z.lor R_OK W_OK); FsRm p;
           AnswerCbQuery ("Fail to resolve file " +:+ file +:+ " .") None]
      end
  | Some err =>
      if bool_decide (err_code err = Some "ENOENT") then
        [FsAccess p (Z.lor R_OK W_OK); notice cq message file now;
         AnswerCbQuery ("File" +:+ file +:+ " has been removed.") long_cache]
      else
        [FsAccess p (Z.lor R_OK W_OK);
         AnswerCbQuery ("Fail to resolve file " +:+ file +:+ " .") no_cache]
  end.

Definition is_notice (ev : Event) : Prop :=
  match ev with
  | EditMessageText _ _ _ _ | DeleteMessage _ _ => True
  | _ => False
  end.

(** [needle] occurs in [s]. *)
Definition contains (needle s : string) : Prop :=
  exists a b, s = a +:+ needle +:+ b.

(** The declared size of a variant, an absent size counting as 0. *)
Definition declared_size (p : DocumentAble) : Z := or_0 (file_size p).

(** The escaping as the specification words it: each character on its own,
    [&], [<] and [>] by their entities, any other character unchanged. *)
Definition escape_char (c : ascii) : string :=
  if char_eqb c "&" then "&amp;"
  else if char_eqb c "<" then "&lt;"
  else if char_eqb c ">" then "&gt;"
  else String c "".

Fixpoint escape_spec (s : string) : string :=
  match s with
  | EmptyString => EmptyString
  | String c r => escape_char c +:+ escape_spec r
  end.

(** A template filled: each hole's value escaped, each literal part as it
    is. *)
Fixpoint fill (holes : list (jsval * string)) : string :=
  match holes with
  | [] => EmptyString
  | (v, f) :: r => escape_spec (js_String v) +:+ f +:+ fill r
  end.

(** The payloads of the buttons a run sent. *)
Definition payloads (es : list Event) : list string :=
  flat_map (fun ev =>
              match ev with
              | SendMessage _ _ extra =>
                  match reply_markup extra with
                  | Some rows => map btn_data (concat rows)
                  | None => []
                  end
              | _ => []
              end) es.

(** ** Sample inputs *)

Definition sample_dates (l : level) : Date :=
  {| getTime := 1700000000000; toISOString := "2023-11-14T22:13:20.000Z" |}.

Definition sample_env : Env :=
  {| BOT_TOKEN := "1:x"; FILE_SAVE_PATH := "/data"; DOMAIN := "files.example.org";
     ENABLE_GROUPS := "-1001,-1002"; INFO_CHANNEL := "@audit" |}.

(** A world at epoch second 1 700 172 800, with the given answers of the
    file system and of the platform. *)
Definition sample_world (access rm : option JsError) (href : string) : World :=
  {| env_DEBUG := Some "1";
     clock := fun _ => {| getTime := 1700172800000;
                          toISOString := "2023-11-16T22:13:20.000Z" |};
     access_result := fun _ _ => access;
     rm_result := fun _ => rm;
     getFileLink_result := fun _ => inr href;
     randomInt_result := fun min _ => min;
     fetch_result := fun _ _ => None;
     clock_reads := 4;
     lastThreadIds := ∅ |}.

Definition ENOENT : JsError :=
  {| err_code := Some "ENOENT";
     err_inspect := "Error: ENOENT: no such file or directory" |}.

Definition EACCES : JsError :=
  {| err_code := Some "EACCES"; err_inspect := "Error: EACCES: permission denied" |}.

(** A broadcast message of the audit chat -1001, posted at the given epoch
    second. *)
Definition broadcast (posted : Z) : Message :=
  {| message_id := 7; date := posted; chat_id := -1001; from_id := Some 99;
     sender_chat_id := None; msg_photo := None; msg_sticker := None;
     msg_audio := None; msg_voice := None; msg_video := None;
     msg_document := None |}.

(** User 42 presses a button of the message [m]. *)
Definition press (m : option Message) (data : string) : CallbackQuery :=
  {| cq_id := "q1"; cq_from_id := 42; cq_message := m; cq_data := data |}.

Definition variant (id : string) (size : option Z) : DocumentAble :=
  {| file_id := id; file_unique_id := id; file_size := size;
     members_json := "" |}.

Definition sample_photos : list DocumentAble :=
  [variant "a" (Some 10); variant "b" (Some 20); variant "c" (Some 20);
   variant "d" None].

Definition photo_message (photos : list DocumentAble) : Message :=
  {| message_id := 8; date := 1700172000; chat_id := -1001; from_id := Some 5;
     sender_chat_id := None; msg_photo := Some photos; msg_sticker := None;
     msg_audio := None; msg_voice := None; msg_video := None;
     msg_document := None |}.

(** A video message of the given chat, sent by user 5. *)
Definition video_message (chat : Z) : MessageCtx :=
  {| ctx_from_id := 5;
     ctx_message :=
       {| message_id := 9; date := 1700172000; chat_id := chat;
          from_id := Some 5; sender_chat_id := None; msg_photo := None;
          msg_sticker := None; msg_audio := None; msg_voice := None;
          msg_video := Some (variant "F" (Some 1000)); msg_document := None |} |}.

Definition mp4_link : string :=
  "https://api.telegram.org/file/bot1:x/videos/file_0.mp4".

End BotObs.

(* ===================================================================== *)
(** * Start-up: the environment                                            *)
(* ===================================================================== *)

Module Startup.

Import Logger Bot.

Definition bs : string := String (ascii_of_N 92) EmptyString.

(** One character of [JSON.stringify(s)] for a string [s]: the two-character
    escapes, [\u00XX] for the other control characters, the character
    itself otherwise. *)
Definition JSON_quote_char (c : ascii) : string :=
  let n := code_of c in
  if n =? 8 then bs +:+ "b"
  else if n =? 9 then bs +:+ "t"
  else if n =? 10 then bs +:+ "n"
  else if n =? 12 then bs +:+ "f"
  else if n =? 13 then bs +:+ "r"
  else if n =? 34 then bs +:+ dq
  else if n =? 92 then bs +:+ bs
  else if n <? 32 then
    bs +:+ "u00" +:+ String (hex_digit (n / 16)) (String (hex_digit (n mod 16)) "")
  else String c "".

Fixpoint JSON_quote_chars (s : string) : string :=
  match s with
  | EmptyString => EmptyString
  | String c r => JSON_quote_char c +:+ JSON_quote_chars r
  end.

(** [JSON.stringify(s)] for a string. *)
Definition JSON_stringify_string (s : string) : string :=
  dq +:+ JSON_quote_chars s +:+ dq.

(** What a call of [getEnv] comes to: the value, [null], or the end of the
    process with an exit status. *)
Inductive Lookup :=
| Found (value : string)
| Null
| Exit (status : Z).

(** [getEnv(name, nullOk)]; [penv] is [process.env]. A variable that is set
    to the empty string is not found. *)
Definition getEnv (lg : Module_) (penv : gmap string string) (name : string)
    (nullOk : bool) : M Lookup :=
  match penv !! name with
  | Some (String c r) => mret (Found (String c r))
  | _ =>
      if nullOk then mret Null
      else
        error (main lg)
          ("process.env[ " +:+ JSON_stringify_string name +:+ " ] not found.") [];;
        mret (Exit 1)
  end.

(** A required variable, then the rest of the start-up with its value; when
    the process has exited nothing more runs. *)
Definition required {A} (lg : Module_) (penv : gmap string string)
    (name : string) (k : string -> M (option A)) : M (option A) :=
  l ← getEnv lg penv name false;
  match l with
  | Found v => k v
  | _ => mret None
  end.

(** The five required variables, read in the order of the module's
    constants; [None] when the process exited. *)
Definition readEnv (lg : Module_) (penv : gmap string string) : M (option Env) :=
  required lg penv "BOT_TOKEN" (fun token =>
  required lg penv "FILE_SAVE_PATH" (fun path =>
  required lg penv "DOMAIN" (fun dom =>
  required lg penv "ENABLE_GROUPS" (fun groups =>
  required lg penv "INFO_CHANNEL" (fun channel =>
  mret (Some {| BOT_TOKEN := token; FILE_SAVE_PATH := path; DOMAIN := dom;
                ENABLE_GROUPS := groups; INFO_CHANNEL := channel |})))))).

(** [Number.parseInt(getEnv('PORT', true) || '0', 10)]; [None] is NaN. *)
Definition listenPort (lg : Module_) (penv : gmap string string) : M (option Z) :=
  l ← getEnv lg penv "PORT" true;
  mret (parseInt (match l with
                  | Found v => v
                  | _ => "0"
                  end) 10).

End Startup.

(* ===================================================================== *)
(** * Vocabulary of further statements                                     *)
(* ===================================================================== *)

Module MoreObs.

Import Logger LoggerObs Bot BotObs Startup.

Definition is_digit (c : ascii) : bool :=
  let n := code_of c in
  (48 <=? n) && (n <=? 57).

(** A character of a printed integer: a digit or the sign. *)
Definition is_decimal (c : ascii) : bool := is_digit c || char_eqb c "-".

(** The name [createThread] gives to the thread [id] of a label. *)
Definition thread_name (threadName : string) (id : Z) : string :=
  util_format "%s:%d" [JStr threadName; JNum id].

(** The attachments of kind [k] a message carries. *)
Definition attachments (k : FileType) (m : Message) : list DocumentAble :=
  match k with
  | photo => default [] (msg_photo m)
  | _ => option_list (message_key k m)
  end.

(** The order in which [getFileIds] looks the kinds up. *)
Definition kind_rank (k : FileType) : nat :=
  match k with
  | photo => 0
  | sticker => 1
  | audio => 2
  | voice => 3
  | video => 4
  | document => 5
  end%nat.

(** What the exist handler asks of the outside once its first log line is
    written, on the answer of the probe. *)
Definition exist_calls (e : Env) (file : string) (w : World) : list Event :=
  let p := path_join (savePath e) file in
  match access_result w p R_OK with
  | None =>
      [FsAccess p R_OK; AnswerCbQuery ("File " +:+ file +:+ " is exist.") no_cache]
  | Some err =>
      if bool_decide (err_code err = Some "ENOENT") then
        [FsAccess p R_OK;
         AnswerCbQuery ("File " +:+ file +:+ " isn't exist.") no_cache]
      else [FsAccess p R_OK; AnswerCbQuery "Fail to resolve file." no_cache]
  end.

(** Whether the message of a callback query, if any, names its sender. *)
Definition has_sender (cq : CallbackQuery) : bool :=
  match cq_message cq with
  | Some m => match from_id m with Some _ => true | None => false end
  | None => true
  end.

(** What a callback query makes the bot ask of the outside. *)
Definition callback_calls (e : Env) (cq : CallbackQuery) (w : World) : list Event :=
  match match_action "exist" (cq_data cq) with
  | Some file => if has_sender cq then exist_calls e file w else []
  | None =>
      match match_action "remove" (cq_data cq) with
      | Some file =>
          match cq_message cq with
          | Some message => remove_calls e cq message file w
          | None => [AnswerCbQuery "Internal error." no_cache]
          end
      | None => []
      end
  end.

(** The name [processFile] gives to the file of a link, in [w]. *)
Definition stored_name (w : World) (href : string) : string :=
  toString16 (randomInt_result w (16 ^ 8) (16 ^ 9)) +:+ toLowerCase (extname href).

Definition not_slash (c : ascii) : bool := negb (char_eqb c "/").

Definition not_angle (c : ascii) : bool :=
  negb (char_eqb c "<") && negb (char_eqb c ">").

(** [s] starts with [p]. *)
Definition starts_with (p s : string) : bool :=
  match strip_prefix p s with
  | Some _ => true
  | None => false
  end.

(** ** More sample inputs *)

Definition expired : JsError :=
  {| err_code := None;
     err_inspect := "TelegramError: 400: Bad Request: file is temporarily unavailable" |}.

Definition reset : JsError :=
  {| err_code := Some "ECONNRESET"; err_inspect := "Error: read ECONNRESET" |}.

(** A world where the platform resolves no link ([link = None]) or resolves
    it to [href] and the download fails or succeeds as [download] says. *)
Definition download_world (link : option string) (download : option JsError)
  : World :=
  {| env_DEBUG := None;
     clock := clock (sample_world None None "");
     access_result := fun _ _ => None;
     rm_result := fun _ => None;
     getFileLink_result :=
       fun _ => match link with
                | Some href => inr href
                | None => inl expired
                end;
     randomInt_result := fun _ max => max - 1;
     fetch_result := fun _ _ => download;
     clock_reads := 4;
     lastThreadIds := ∅ |}.

Definition jpg_link : string :=
  "https://api.telegram.org/file/bot1:x/photos/file_3.JPG".

(** A message that names no sender, only the chat it was sent on behalf
    of. *)
Definition anonymous_post : Message :=
  {| message_id := 11; date := 1700172000; chat_id := -1001; from_id := None;
     sender_chat_id := Some (-1001); msg_photo := None; msg_sticker := None;
     msg_audio := None; msg_voice := None; msg_video := None;
     msg_document := None |}.

(** What a callback handler may do with the file system, and what it never
    does: a probe or a removal is of a file of the save directory whose name
    passes the pattern; there is no download and no message sent. *)
Definition callback_safe (e : Env) (ev : Event) : Prop :=
  match ev with
  | FsAccess p _ | FsRm p =>
      exists f, p = path_join (savePath e) f
                /\ is_file_name f = true
                /\ all_chars not_slash f = true
  | GetFileLink _ | FetchTo _ _ | SendMessage _ _ _ => False
  | _ => True
  end.

(** The calls of a handler that only looks: the console, a probe for read
    access, an acknowledgment that is not cached. *)
Definition only_looks (ev : Event) : Prop :=
  match ev with
  | Console _ _ => True
  | FsAccess _ mode => mode = R_OK
  | AnswerCbQuery _ extra => extra = no_cache
  | _ => False
  end.

(** The required variables, in the order the module reads them. *)
Definition required_names : list string :=
  ["BOT_TOKEN"; "FILE_SAVE_PATH"; "DOMAIN"; "ENABLE_GROUPS"; "INFO_CHANNEL"].

(** A variable of [process.env] that is set, and not to the empty string. *)
Definition is_set (penv : gmap string string) (name : string) : bool :=
  match penv !! name with
  | Some (String _ _) => true
  | _ => false
  end.

Definition sample_penv : gmap string string :=
  <["BOT_TOKEN" := "1:x"]>
    (<["FILE_SAVE_PATH" := "/data"]>
       (<["DOMAIN" := ""]>
          (<["INFO_CHANNEL" := "@audit"]>
             (<["PORT" := "8080"]> ∅)))).

Definition full_penv : gmap string string :=
  <["DOMAIN" := "files.example.org"]>
    (<["ENABLE_GROUPS" := "-1001234567890"]> sample_penv).

End MoreObs.

(* ===================================================================== *)
(** * Strings                                                              *)
(* ===================================================================== *)

Module StringFacts.

Lemma append_cons (c : ascii) (a b : string) :
  String c a +:+ b = String c (a +:+ b).
Proof. reflexivity. Qed.

Lemma append_nil_r (s : string) : s +:+ "" = s.
Proof.
  induction s as [|c s IH]; [reflexivity | rewrite append_cons, IH; reflexivity].
Qed.

Lemma append_assoc (a b c : string) : (a +:+ b) +:+ c = a +:+ (b +:+ c).
Proof.
  induction a as [|x a IH]; [reflexivity |].
  rewrite !append_cons, IH; reflexivity.
Qed.

Lemma length_append (a b : string) :
  String.length (a +:+ b) = (String.length a + String.length b)%nat.
Proof.
  induction a as [|x a IH]; [reflexivity |].
  rewrite append_cons; cbn [String.length]; rewrite IH; reflexivity.
Qed.

End StringFacts.

(* ===================================================================== *)
(** * Properties of the logger                                             *)
(* ===================================================================== *)

Module LoggerFacts.

Import Logger LoggerObs.

(** Runs the monad's combinators and the logger's constructors of a goal. *)
Ltac run_log :=
  cbv beta iota zeta delta
    [op debug info warn error scoped getLogger base_at makeLogger console
     debug_off mbind M_bind mret M_ret Eff.bind Eff.ret Eff.read Eff.emit
     completion final calls app].

Lemma load_at (w : World) :
  load w = mkRun (Normal (module_at (load_dates w)))
             (with_clock_reads (4 + clock_reads w) w) [].
Proof.
  unfold load, init_baseLogger, internalLog, load_dates, module_at, base_at.
  cbv beta iota delta
    [mbind M_bind mret M_ret Eff.bind Eff.ret new_Date completion final calls
     app level_index].
  cbn [with_clock_reads clock clock_reads Nat.add].
  repeat rewrite Nat.add_0_r.
  replace (clock_reads w + 1)%nat with (S (clock_reads w)) by lia.
  replace (clock_reads w + 2)%nat with (S (S (clock_reads w))) by lia.
  replace (clock_reads w + 3)%nat with (S (S (S (clock_reads w)))) by lia.
  reflexivity.
Qed.

Lemma tag_of_level (l : level) : toUpperCase (level_name l) = level_tag l.
Proof. destruct l; reflexivity. Qed.

Lemma format_base (a b c : string) :
  util_format ("[%s] [%s]" +:+ " %s") [JStr a; JStr b; JStr c]
  = "[" +:+ a +:+ "] [" +:+ b +:+ "] " +:+ c.
Proof.
  transitivity ("[" +:+ a +:+ "] [" +:+ b +:+ "] " +:+ (c +:+ ""));
    [reflexivity | now rewrite StringFacts.append_nil_r].
Qed.

Lemma format_scope (name c : string) :
  util_format ("[%s]" +:+ " %s") [JStr name; JStr c] = "[" +:+ name +:+ "] " +:+ c.
Proof.
  transitivity ("[" +:+ name +:+ "] " +:+ (c +:+ ""));
    [reflexivity | now rewrite StringFacts.append_nil_r].
Qed.

Lemma base_write (s : level -> Date) (l : level) (message : string)
    (params : list jsval) (w : World) :
  op l (base_at s) message params w
  = mkRun (Normal tt) w
      (written l ("[" +:+ toISOString (s l) +:+ "] [" +:+ level_tag l +:+ "] "
                  +:+ util_format message params) w).
Proof.
  unfold written, suppressed.
  destruct l; run_log; rewrite ?format_base, ?tag_of_level; try reflexivity.
  destruct (env_DEBUG w) as [d|]; [|reflexivity].
  destruct (decide (d = "")); rewrite ?format_base; reflexivity.
Qed.

Lemma scoped_write (s : level -> Date) (name : string) (l : level)
    (message : string) (params : list jsval) (w : World) :
  op l (scoped name (base_at s)) message params w
  = mkRun (Normal tt) w
      (written l ("[" +:+ toISOString (s l) +:+ "] [" +:+ level_tag l +:+ "] ["
                  +:+ name +:+ "] " +:+ util_format message params) w).
Proof.
  unfold written, suppressed.
  destruct l; run_log;
    rewrite ?format_scope, ?format_base, ?tag_of_level; try reflexivity.
  destruct (env_DEBUG w) as [d|]; [|reflexivity].
  destruct (decide (d = "")); rewrite ?format_base; reflexivity.
Qed.

Lemma format_thread (threadName : string) (id : Z) :
  util_format "%s:%d" [JStr threadName; JNum id] = threadName +:+ ":" +:+ pretty id.
Proof.
  transitivity (threadName +:+ ":" +:+ (pretty id +:+ ""));
    [reflexivity | now rewrite StringFacts.append_nil_r].
Qed.

Lemma createThread_run (base : Logger) (threadName : string) (w : World) :
  createThread base threadName w
  = mkRun (Normal (scoped (threadName +:+ ":" +:+ pretty (next_id threadName w)) base))
      (with_lastThreadIds
         (<[threadName := next_id threadName w]> (lastThreadIds w)) w)
      [].
Proof.
  unfold createThread.
  cbv beta iota zeta delta
    [mbind M_bind mret M_ret Eff.bind Eff.ret Eff.read Eff.modify app].
  rewrite format_thread. reflexivity.
Qed.

Lemma createThreads_from (base : Logger) (labels : list string) :
  forall w : World,
  exists (ids : list Z) (w' : World),
    length ids = length labels
    /\ createThreads base labels w
       = mkRun (Normal (zip_with (fun l k => scoped (l +:+ ":" +:+ pretty k) base)
                          labels ids)) w' []
    /\ forall l,
         numbers_of l labels ids
         = (fun i => default 0 (lastThreadIds w !! l) + Z.of_nat i)
             <$> seq 1 (calls_of l labels).
Proof.
  induction labels as [|x r IH]; intros w.
  - exists [], w. repeat split.
  - destruct (IH (with_lastThreadIds
                    (<[x := next_id x w]> (lastThreadIds w)) w))
      as (ids & w' & Hlen & Hrun & Hnum).
    exists (next_id x w :: ids), w'. split; [cbn; lia|]. split.
    + cbn [createThreads].
      cbv beta iota zeta delta [mbind M_bind mret M_ret Eff.bind Eff.ret].
      rewrite createThread_run, Hrun. reflexivity.
    + intros l. cbn [numbers_of]. unfold calls_of. rewrite filter_cons.
      specialize (Hnum l). cbn [lastThreadIds with_lastThreadIds] in Hnum.
      destruct (decide (x = l)) as [->|Hne].
      * rewrite Hnum, lookup_insert_eq. cbn [length seq fmap list_fmap default].
        unfold next_id, calls_of. f_equal.
        rewrite <- (fmap_S_seq 1), <- list_fmap_compose.
        apply list_fmap_ext. intros _ i _. cbn. lia.
      * rewrite Hnum, lookup_insert_ne by done. reflexivity.
Qed.

Lemma external_app (a b : list Event) : external (a ++ b) = external a ++ external b.
Proof. apply List.filter_app. Qed.

Lemma external_written (l : level) (line : string) (w : World) :
  external (written l line w) = [].
Proof. unfold written. destruct (suppressed l w); reflexivity. Qed.

(** ** The claims about the logger *)

(** C9. Every line written through a severity of the base logger, bare or
    under a scope name (a thread's or [main]'s), starts with the date read
    when [load] constructed that severity: whatever world [w] the write
    happens in, the line carries the reading of the clock that [load] made
    in [w0], the clock of [w] is not read, and [w] is left as it was. *)
Theorem timestamp_fixed_at_load (w0 : World) :
  exists lg : Module_,
    completion (load w0) = Normal lg
    /\ main lg = scoped "main" (baseLogger lg)
    /\ (forall (threadName : string) (w1 : World),
          exists name,
            completion (createThread (baseLogger lg) threadName w1)
            = Normal (scoped name (baseLogger lg)))
    /\ forall (l : level) (message : string) (params : list jsval) (w : World),
         let stamp := toISOString (clock w0 (clock_reads w0 + level_index l)%nat) in
         op l (baseLogger lg) message params w
         = mkRun (Normal tt) w
             (written l ("[" +:+ stamp +:+ "] [" +:+ level_tag l +:+ "] "
                         +:+ util_format message params) w)
         /\ forall name : string,
              op l (scoped name (baseLogger lg)) message params w
              = mkRun (Normal tt) w
                  (written l ("[" +:+ stamp +:+ "] [" +:+ level_tag l +:+ "] ["
                              +:+ name +:+ "] " +:+ util_format message params) w).
Proof.
  exists (module_at (load_dates w0)). rewrite load_at.
  split; [reflexivity|]. split; [reflexivity|]. split.
  - intros threadName w1. eexists. rewrite createThread_run. reflexivity.
  - intros l message params w. cbn zeta. split.
    + apply (base_write (load_dates w0)).
    + intros name. apply (scoped_write (load_dates w0)).
Qed.

(** C8. In a process that starts with no thread created, whatever the
    labels of the successive calls of [createThread], the calls return the
    loggers named [label:k], and for every label the numbers [k] of its calls
    are 1, 2, 3, ... in call order: the first is 1 and each is the previous
    one plus 1. *)
Theorem createThread_sequence (base : Logger) (labels : list string) (w : World) :
  exists ids : list Z,
    length ids = length labels
    /\ completion (createThreads base labels (with_lastThreadIds ∅ w))
       = Normal (zip_with (fun l k => scoped (l +:+ ":" +:+ pretty k) base)
                   labels ids)
    /\ forall l, numbers_of l labels ids = Z.of_nat <$> seq 1 (calls_of l labels).
Proof.
  destruct (createThreads_from base labels (with_lastThreadIds ∅ w))
    as (ids & w' & Hlen & Hrun & Hnum).
  exists ids. split; [exact Hlen|]. split; [rewrite Hrun; reflexivity|].
  intros l. rewrite Hnum. apply list_fmap_ext. intros _ i _.
  cbn [lastThreadIds with_lastThreadIds]. rewrite lookup_empty. cbn. lia.
Qed.

End LoggerFacts.

(* ===================================================================== *)
(** * Properties of the main module                                        *)
(* ===================================================================== *)

Module BotFacts.

Import Logger LoggerObs LoggerFacts Bot BotObs.

Lemma debug_run s name message w :
  debug (scoped name (base_at s)) message [] w
  = mkRun (Normal tt) w (written Debug (line s Debug name message) w).
Proof. exact (scoped_write s name Debug message [] w). Qed.

Lemma info_run s name message w :
  info (scoped name (base_at s)) message [] w
  = mkRun (Normal tt) w (written Info (line s Info name message) w).
Proof. exact (scoped_write s name Info message [] w). Qed.

Lemma warn_run s name message w :
  warn (scoped name (base_at s)) message [] w
  = mkRun (Normal tt) w (written Warn (line s Warn name message) w).
Proof. exact (scoped_write s name Warn message [] w). Qed.

Lemma error_run s name message w :
  error (scoped name (base_at s)) message [] w
  = mkRun (Normal tt) w (written Error (line s Error name message) w).
Proof. exact (scoped_write s name Error message [] w). Qed.

(** Symbolic execution of a handler: unfold the monad, rewrite the logger's
    calls by their runs, project the world. *)
Ltac run_step :=
  cbv beta iota zeta delta
    [mbind M_bind mret M_ret Eff.bind Eff.ret Eff.read Eff.emit Eff.modify
     Eff.throw Eff.try_catch Eff.settle fs_access fs_rm answerCbQuery
     getFileLink randomInt fetchStream ctx_sendMessage Date_now new_Date];
  cbn [baseLogger main module_at];
  rewrite ?createThread_run, ?debug_run, ?info_run, ?warn_run, ?error_run;
  cbn [env_DEBUG clock access_result rm_result getFileLink_result
       randomInt_result fetch_result clock_reads lastThreadIds
       with_lastThreadIds with_clock_reads].

Ltac run := repeat progress run_step.

Ltac finish_external :=
  cbn [calls completion final];
  rewrite ?external_app, ?external_written;
  try reflexivity.

(** Finds a call in a sequence of calls written as a disjunction. *)
Ltac find_call :=
  first [ apply list_elem_of_here | left; find_call | right; find_call ].

Lemma onRemove_external s e cq message file w :
  cq_message cq = Some message ->
  completion (onRemove (module_at s) e cq file w) = Normal tt
  /\ external (calls (onRemove (module_at s) e cq file w))
     = remove_calls e cq message file w.
Proof.
  intros H. unfold onRemove, remove_calls. rewrite H. run.
  destruct (access_result w (path_join (savePath e) file) (Z.lor R_OK W_OK))
    as [err|]; run.
  - destruct (bool_decide (err_code err = Some "ENOENT")); run.
    + unfold notice.
      destruct (date message * 1000 <? _); run; split; finish_external.
    + split; finish_external.
  - destruct (rm_result w (path_join (savePath e) file)) as [err|]; run.
    + split; finish_external.
    + unfold notice.
      destruct (date message * 1000 <? _); run; split; finish_external.
Qed.

Lemma external_elem (ev : Event) (es : list Event) :
  ev ∈ es -> is_console ev = false -> ev ∈ external es.
Proof.
  intros Hin Hc. apply list_elem_of_In, List.filter_In.
  split; [now apply list_elem_of_In | now rewrite Hc].
Qed.

Lemma contains_self (s : string) : contains s s.
Proof. exists "", "". cbn. now rewrite StringFacts.append_nil_r. Qed.

Lemma contains_after (needle a s : string) :
  contains needle s -> contains needle (a +:+ s).
Proof.
  intros (x & y & ->). exists (a +:+ x), y.
  now rewrite StringFacts.append_assoc.
Qed.

(** ** The remove handler *)

(** C10. When the callback query carries no message, the remove handler
    completes, and all it asks of the outside is one acknowledgment,
    "Internal error." with cache time 0: no probe, no removal, no edit and no
    deletion of a message. *)
Theorem onRemove_without_message s e cq file w :
  cq_message cq = None ->
  completion (onRemove (module_at s) e cq file w) = Normal tt
  /\ external (calls (onRemove (module_at s) e cq file w))
     = [AnswerCbQuery "Internal error."
          (Some {| show_alert := None; cache_time := Some 0 |})].
Proof.
  intros H. unfold onRemove. rewrite H. run. split; finish_external.
Qed.

Lemma onRemove_without_message_witness :
  cq_message (press None "remove:100000000.jpg") = None
  /\ external (calls (onRemove (module_at sample_dates) sample_env
                        (press None "remove:100000000.jpg") "100000000.jpg"
                        (sample_world None None "")))
     = [AnswerCbQuery "Internal error."
          (Some {| show_alert := None; cache_time := Some 0 |})].
Proof.
  split; [reflexivity|].
  apply (onRemove_without_message sample_dates sample_env
           (press None "remove:100000000.jpg") "100000000.jpg"
           (sample_world None None "")).
  reflexivity.
Defined.

Lemma notice_is_notice cq message file now : is_notice (notice cq message file now).
Proof. unfold notice. now destruct (_ <? _). Qed.

(** C5. The remove handler, its probe answered by an error. Not found: the
    handler completes; after the probe it asks for one edit or deletion of a
    message and acknowledges "File<f> has been removed."; it never calls
    [rm]. Any other error: after the probe it only acknowledges
    "Fail to resolve file <f> ." with cache time 0; no [rm], no edit, no
    deletion. *)
Theorem onRemove_probe_failed s e cq message file w err :
  cq_message cq = Some message ->
  access_result w (path_join (savePath e) file) (Z.lor R_OK W_OK) = Some err ->
  let r := onRemove (module_at s) e cq file w in
  let p := path_join (savePath e) file in
  completion r = Normal tt
  /\ (forall q, FsRm q ∉ calls r)
  /\ (err_code err = Some "ENOENT" ->
        exists ev,
          is_notice ev
          /\ external (calls r)
             = [FsAccess p 6; ev;
                AnswerCbQuery ("File" +:+ file +:+ " has been removed.")
                  (Some {| show_alert := Some true; cache_time := Some 3600 |})])
  /\ (err_code err <> Some "ENOENT" ->
        external (calls r)
        = [FsAccess p 6;
           AnswerCbQuery ("Fail to resolve file " +:+ file +:+ " .")
             (Some {| show_alert := None; cache_time := Some 0 |})]).
Proof.
  intros Hm Ha r p.
  destruct (onRemove_external s e cq message file w Hm) as [Hc Hx].
  fold r in Hc, Hx. unfold remove_calls in Hx. rewrite Ha in Hx. fold p in Hx.
  split; [exact Hc|]. split; [|split].
  - intros q Hin. apply external_elem in Hin; [|reflexivity].
    rewrite Hx in Hin.
    pose proof (notice_is_notice cq message file
                  (getTime (clock w (clock_reads w)))) as Hn.
    destruct (bool_decide (err_code err = Some "ENOENT"));
      repeat (apply elem_of_cons in Hin as [Hin|Hin]);
      try discriminate Hin; try (now inversion Hin).
    rewrite <- Hin in Hn. exact Hn.
  - intros He. rewrite bool_decide_eq_true_2 in Hx by exact He.
    eexists. split; [apply notice_is_notice | exact Hx].
  - intros He. rewrite bool_decide_eq_false_2 in Hx by exact He. exact Hx.
Qed.

Lemma onRemove_probe_failed_witness :
  let r := onRemove (module_at sample_dates) sample_env
             (press (Some (broadcast 1700172000)) "remove:100000000.jpg")
             "100000000.jpg" (sample_world (Some ENOENT) None "") in
  (forall q, FsRm q ∉ calls r)
  /\ exists ev,
       is_notice ev
       /\ external (calls r)
          = [FsAccess (path_join "/data" "100000000.jpg") 6; ev;
             AnswerCbQuery "File100000000.jpg has been removed."
               (Some {| show_alert := Some true; cache_time := Some 3600 |})].
Proof.
  intros r.
  destruct (onRemove_probe_failed sample_dates sample_env
              (press (Some (broadcast 1700172000)) "remove:100000000.jpg")
              (broadcast 1700172000) "100000000.jpg"
              (sample_world (Some ENOENT) None "") ENOENT
              eq_refl eq_refl) as (_ & Hrm & Hnf & _).
  split; [exact Hrm | exact (Hnf eq_refl)].
Defined.

(** The last stage of the remove handler, once the file is gone (removed
    now, or found absent by the probe): exactly one call, [notice], precedes
    the acknowledgment. *)
Lemma onRemove_last_stage s e cq message file w :
  cq_message cq = Some message ->
  (access_result w (path_join (savePath e) file) (Z.lor R_OK W_OK) = None
   /\ rm_result w (path_join (savePath e) file) = None)
  \/ (exists err,
        access_result w (path_join (savePath e) file) (Z.lor R_OK W_OK) = Some err
        /\ err_code err = Some "ENOENT") ->
  exists before text,
    external (calls (onRemove (module_at s) e cq file w))
    = before
        ++ [notice cq message file (getTime (clock w (clock_reads w)));
            AnswerCbQuery text long_cache]
    /\ Forall (fun ev => ~ is_notice ev) before.
Proof.
  intros Hm Hfs.
  destruct (onRemove_external s e cq message file w Hm) as [_ Hx].
  rewrite Hx. unfold remove_calls.
  destruct Hfs as [[Ha Hr]|(err & Ha & He)]; rewrite Ha.
  - rewrite Hr. eexists [_; _], _. split; [reflexivity|].
    repeat constructor; intros [].
  - rewrite bool_decide_eq_true_2 by exact He.
    eexists [_], _. split; [reflexivity|]. repeat constructor; intros [].
Qed.

(** C3, at a press by user 42 on message 7 of chat -1001, posted more than
    48 hours before: the handler removes the file and asks for one edit, of
    the message whose identifier is -1001 in the chat 42, that is, with the
    presser's identifier as the chat and the chat's identifier as the
    message; it never asks to edit message 7 of chat -1001. *)
Theorem old_broadcast_edit_is_misaddressed :
  let r := onRemove (module_at sample_dates) sample_env
             (press (Some (broadcast 1699000000)) "remove:100000000.jpg")
             "100000000.jpg" (sample_world None None "") in
  external (calls r)
  = [FsAccess (path_join "/data" "100000000.jpg") 6;
     FsRm (path_join "/data" "100000000.jpg");
     EditMessageText (JNum 42) (Some (-1001)) None
       "File 100000000.jpg has been removed.";
     AnswerCbQuery "Delete 100000000.jpg success."
       (Some {| show_alert := Some true; cache_time := Some 3600 |})]
  /\ forall text, EditMessageText (JNum (-1001)) (Some 7) None text ∉ calls r.
Proof.
  intros r.
  destruct (onRemove_external sample_dates sample_env
              (press (Some (broadcast 1699000000)) "remove:100000000.jpg")
              (broadcast 1699000000) "100000000.jpg"
              (sample_world None None "") eq_refl) as [_ Hx].
  fold r in Hx. split; [rewrite Hx; reflexivity|].
  intros text Hin. apply external_elem in Hin; [|reflexivity].
  rewrite Hx in Hin. cbv in Hin.
  repeat (apply elem_of_cons in Hin as [Hin|Hin]); try discriminate Hin.
  inversion Hin.
Qed.

(** ** The exist handler *)

(** The exist handler on a query whose message is absent or names its
    sender: if the probe of [savePath/f] for read access succeeds, the handler
    acknowledges "File f is exist."; if it fails with code ENOENT,
    "File f isn't exist."; if it fails otherwise, "Fail to resolve file." and
    a line with the inspected error goes to [console.error]. In the three
    cases the probe and the acknowledgment are the only calls beside the
    console, and the cache time of the acknowledgment is 0. *)
Lemma onExist_with_sender s e cq file w :
  cq_message cq = None
  \/ (exists m i, cq_message cq = Some m /\ from_id m = Some i) ->
  let p := path_join (savePath e) file in
  let r := onExist (module_at s) e cq file w in
  let zero := Some {| show_alert := None; cache_time := Some 0 |} in
  (access_result w p R_OK = None ->
     external (calls r)
     = [FsAccess p R_OK; AnswerCbQuery ("File " +:+ file +:+ " is exist.") zero]
     /\ contains "is exist" ("File " +:+ file +:+ " is exist."))
  /\ (forall err,
        access_result w p R_OK = Some err -> err_code err = Some "ENOENT" ->
        external (calls r)
        = [FsAccess p R_OK; AnswerCbQuery ("File " +:+ file +:+ " isn't exist.") zero]
        /\ contains "isn't exist" ("File " +:+ file +:+ " isn't exist."))
  /\ (forall err,
        access_result w p R_OK = Some err -> err_code err <> Some "ENOENT" ->
        external (calls r)
        = [FsAccess p R_OK; AnswerCbQuery "Fail to resolve file." zero]
        /\ exists ln,
             Console Error ln ∈ calls r /\ contains (err_inspect err) ln).
Proof.
  intros Hsender p r zero.
  assert (Hraw : exists raw : string,
             match cq_message cq with
             | None => (mret "null" : M string)
             | Some m =>
                 match from_id m with
                 | Some i => mret (describe_message (pretty i) m)
                 | None => throw TypeError_id
                 end
             end = mret raw).
  { destruct Hsender as [Hm|(m & i & Hm & Hf)]; rewrite Hm; [now eexists|].
    rewrite Hf. now eexists. }
  destruct Hraw as [raw Hraw].
  unfold r, onExist. rewrite Hraw. fold p. clear r.
  split; [|split].
  - intros Ha. run. rewrite Ha. run. split; [finish_external|].
    exists ("File " +:+ file +:+ " "), ".".
    now rewrite !StringFacts.append_assoc.
  - intros err Ha He. run. rewrite Ha. run.
    rewrite bool_decide_eq_true_2 by exact He. run. split; [finish_external|].
    exists ("File " +:+ file +:+ " "), ".".
    now rewrite !StringFacts.append_assoc.
  - intros err Ha He. run. rewrite Ha. run.
    rewrite bool_decide_eq_false_2 by exact He. run. split; [finish_external|].
    eexists. split.
    + cbn [calls]. unfold written. cbn [suppressed].
      rewrite !elem_of_app. find_call.
    + unfold line. repeat apply contains_after. apply contains_self.
Qed.

(** C6, at a press of [exist:100000000.jpg] on a message that has no
    [from], the file being there (the probe would succeed): the handler
    throws the [TypeError] of [message.from!.id] while it composes its first
    log line, before any call; through the dispatcher the press gets no
    acknowledgment and the file is not probed. The same press on a message
    that names its sender is acknowledged "File 100000000.jpg is exist."
    with cache time 0. *)
Theorem exist_press_without_from_throws :
  let w := sample_world None None "" in
  let silent := press (Some MoreObs.anonymous_post) "exist:100000000.jpg" in
  let signed := press (Some (broadcast 1700172000)) "exist:100000000.jpg" in
  access_result w (path_join (savePath sample_env) "100000000.jpg") R_OK = None
  /\ from_id MoreObs.anonymous_post = None
  /\ completion (onExist (module_at sample_dates) sample_env silent
                   "100000000.jpg" w)
     = Thrown TypeError_id
  /\ calls (onExist (module_at sample_dates) sample_env silent "100000000.jpg" w)
     = []
  /\ external (calls (onCallbackQuery (module_at sample_dates) sample_env silent w))
     = []
  /\ external (calls (onCallbackQuery (module_at sample_dates) sample_env signed w))
     = [FsAccess (path_join "/data" "100000000.jpg") R_OK;
        AnswerCbQuery "File 100000000.jpg is exist."
          (Some {| show_alert := None; cache_time := Some 0 |})].
Proof.
  cbv zeta. repeat split; vm_compute; reflexivity.
Qed.

(** ** getFileIds *)

Lemma fold_left_snoc {A B} (f : A -> B -> A) (l : list B) (x : B) (a : A) :
  fold_left f (l ++ [x]) a = f (fold_left f l a) x.
Proof. now rewrite fold_left_app. Qed.

(** The loop over the variants keeps, with its size, the first variant of
    the largest size. *)
Lemma photo_loop (photos : list DocumentAble) :
  photos <> [] ->
  (forall q, q ∈ photos -> 0 <= declared_size q) ->
  exists (i : nat) (p : DocumentAble),
    photos !! i = Some p
    /\ fold_left photo_step photos (0, None) = (declared_size p, Some p)
    /\ (forall q, q ∈ photos -> declared_size q <= declared_size p)
    /\ (forall j q, (j < i)%nat -> photos !! j = Some q ->
                    declared_size q < declared_size p).
Proof.
  induction photos as [|x l IH] using rev_ind; [congruence|].
  intros _ Hpos.
  destruct l as [|y l'].
  - exists 0%nat, x. cbn. repeat split.
    + intros q Hq. apply list_elem_of_singleton in Hq. subst. lia.
    + intros j q Hj. lia.
  - destruct IH as (i & p & Hi & Hfold & Hmax & Hfirst); [congruence| |].
    { intros q Hq. apply Hpos. apply elem_of_app. now left. }
    assert (Hx : 0 <= declared_size x).
    { apply Hpos. apply elem_of_app. right. apply list_elem_of_here. }
    assert (Hp : 0 <= declared_size p).
    { apply Hpos. apply elem_of_app. left.
      apply list_elem_of_lookup. now exists i. }
    rewrite fold_left_snoc, Hfold. unfold photo_step. cbn [orb].
    destruct (truthy (file_size x) && (declared_size p <? or_0 (file_size x)))
      eqn:Hc.
    + apply andb_true_iff in Hc as [_ Hlt]. apply Z.ltb_lt in Hlt.
      fold (declared_size x) in Hlt.
      exists (length (y :: l')), x. repeat split.
      * rewrite lookup_app_r by lia. now rewrite Nat.sub_diag.
      * intros q Hq. apply elem_of_app in Hq as [Hq|Hq].
        -- specialize (Hmax q Hq). lia.
        -- apply list_elem_of_singleton in Hq. subst. lia.
      * intros j q Hj Hq. rewrite lookup_app_l in Hq by exact Hj.
        assert (q ∈ y :: l') as Hin by (apply list_elem_of_lookup; eauto).
        specialize (Hmax q Hin). lia.
    + exists i, p. repeat split.
      * apply lookup_lt_Some in Hi as Hlt. now rewrite lookup_app_l.
      * intros q Hq. apply elem_of_app in Hq as [Hq|Hq]; [now apply Hmax|].
        apply list_elem_of_singleton in Hq. subst q.
        apply andb_false_iff in Hc as [Hc|Hc].
        -- unfold declared_size, truthy, or_0 in *.
           destruct (file_size x) as [n|]; [|lia].
           apply negb_false_iff, Z.eqb_eq in Hc. lia.
        -- apply Z.ltb_ge in Hc. exact Hc.
      * intros j q Hj Hq. apply lookup_lt_Some in Hi as Hlt.
        rewrite lookup_app_l in Hq by lia. eauto.
Qed.

(** C4. For a message with a non-empty list of photo variants, of sizes
    that are not negative, [getFileIds] returns as a photo a variant of the
    largest declared size (an absent size counting as 0, the smallest), and
    every variant before it in the list is strictly smaller: among the
    largest, it is the first. *)
Theorem getFileIds_largest_first (m : Message) (photos : list DocumentAble) :
  msg_photo m = Some photos ->
  photos <> [] ->
  (forall q, q ∈ photos -> 0 <= declared_size q) ->
  exists (i : nat) (p : DocumentAble),
    photos !! i = Some p
    /\ getFileIds m = Some {| file_type := photo; file_obj := p |}
    /\ (forall q, q ∈ photos -> declared_size q <= declared_size p)
    /\ (forall j q, (j < i)%nat -> photos !! j = Some q ->
                    declared_size q < declared_size p).
Proof.
  intros Hm Hne Hpos.
  destruct (photo_loop photos Hne Hpos) as (i & p & Hi & Hfold & Hmax & Hfirst).
  exists i, p. split; [exact Hi|]. split; [|split; assumption].
  unfold getFileIds, largest_photo. now rewrite Hm, Hfold.
Qed.

Lemma getFileIds_largest_first_witness :
  exists (i : nat) (p : DocumentAble),
    sample_photos !! i = Some p
    /\ getFileIds (photo_message sample_photos)
       = Some {| file_type := photo; file_obj := p |}
    /\ (forall q, q ∈ sample_photos -> declared_size q <= declared_size p)
    /\ (forall j q, (j < i)%nat -> sample_photos !! j = Some q ->
                    declared_size q < declared_size p).
Proof.
  apply (getFileIds_largest_first (photo_message sample_photos) sample_photos).
  - reflexivity.
  - discriminate.
  - intros q Hq. unfold sample_photos in Hq.
    repeat (apply elem_of_cons in Hq as [->|Hq]); try (cbn; lia).
    inversion Hq.
Defined.

(** ** escape *)

Lemma replace_all_app (c : ascii) (by_ a b : string) :
  replace_all c by_ (a +:+ b) = replace_all c by_ a +:+ replace_all c by_ b.
Proof.
  induction a as [|x a IH]; [reflexivity|].
  rewrite StringFacts.append_cons. cbn [replace_all].
  destruct (char_eqb x c).
  - now rewrite IH, StringFacts.append_assoc.
  - now rewrite IH, StringFacts.append_cons.
Qed.

Lemma escape_value_spec (s : string) : escape_value s = escape_spec s.
Proof.
  unfold escape_value. induction s as [|x r IH]; [reflexivity|].
  cbn [replace_all escape_spec]. unfold escape_char.
  destruct (char_eqb x "&") eqn:Hamp.
  - rewrite !replace_all_app, IH. reflexivity.
  - cbn [replace_all]. destruct (char_eqb x "<") eqn:Hlt.
    + rewrite !replace_all_app, IH. reflexivity.
    + cbn [replace_all]. destruct (char_eqb x ">") eqn:Hgt.
      * rewrite IH. reflexivity.
      * rewrite IH. reflexivity.
Qed.

Lemma escape_loop_fill (holes : list (jsval * string)) :
  forall result f0 : string,
    escape_loop result (f0 :: holes.*2) (holes.*1) = result +:+ f0 +:+ fill holes.
Proof.
  induction holes as [|[v f] r IH]; intros result f0.
  - cbn. now rewrite StringFacts.append_nil_r.
  - cbn [fmap list_fmap fst snd escape_loop shift fill].
    rewrite IH, escape_value_spec, !StringFacts.append_assoc. reflexivity.
Qed.

(** C7. The three replacements of [escape], applied in sequence to a
    value, amount to replacing each [&] by [&amp;], each [<] by [&lt;] and
    each [>] by [&gt;] and nothing else; a template with one more literal
    part than it has holes gives its literal parts unchanged, with the
    escaped values between them; and the value [<b>&] is rendered
    [&lt;b&gt;&amp;], between the unescaped tags of the template. *)
Theorem escape_three_entities :
  (forall s : string, escape_value s = escape_spec s)
  /\ (forall (f0 : string) (holes : list (jsval * string)),
        escape (f0 :: holes.*2) (holes.*1) = f0 +:+ fill holes)
  /\ escape_value "<b>&" = "&lt;b&gt;&amp;"
  /\ escape ["file: <code>"; "</code> (unique: <code>"; "</code>)"]
       [JStr "<b>&"; JNum 7]
     = "file: <code>&lt;b&gt;&amp;</code> (unique: <code>7</code>)".
Proof.
  split; [exact escape_value_spec|]. split; [|split; reflexivity].
  intros f0 holes. unfold escape. now rewrite escape_loop_fill.
Qed.

(** ** The allow-list *)

(** [parseInt] with radix 1 is NaN whatever the string: the second entry of
    the list, parsed with its index as the radix. *)
Lemma parseInt_radix_1 (input : string) : parseInt input 1 = None.
Proof.
  unfold parseInt. destruct (strip_sign (trim_start input)) as [sign body].
  reflexivity.
Qed.

(** A message of a chat that [enableGroups] does not include: the handler
    completes and asks nothing of the outside. *)
Lemma onMessage_not_enabled s e ctx w :
  includes (enableGroups e) (chat_id (ctx_message ctx)) = false ->
  completion (onMessage (module_at s) e ctx w) = Normal tt
  /\ external (calls (onMessage (module_at s) e ctx w)) = [].
Proof.
  intros H. unfold onMessage. rewrite H. cbn [negb]. run.
  split; finish_external.
Qed.

(** C1, with ENABLE_GROUPS set to [-1001,-1002]: the list the messages are
    checked against holds -1001 and NaN, so that a message of the listed chat
    -1002 is not included and the handler asks nothing of the outside for
    it. *)
Theorem second_listed_group_is_ignored s w :
  ENABLE_GROUPS sample_env = "-1001,-1002"
  /\ enableGroups sample_env = [Some (-1001); None]
  /\ includes (enableGroups sample_env) (-1002) = false
  /\ external (calls (onMessage (module_at s) sample_env (video_message (-1002)) w))
     = [].
Proof.
  split; [reflexivity|]. split; [reflexivity|]. split; [reflexivity|].
  now apply onMessage_not_enabled.
Qed.

(** ** File names *)

Lemma all_chars_app (p : ascii -> bool) (a b : string) :
  all_chars p (a +:+ b) = all_chars p a && all_chars p b.
Proof.
  induction a as [|x a IH]; [reflexivity|].
  rewrite StringFacts.append_cons. cbn [all_chars].
  now rewrite IH, andb_assoc.
Qed.

Lemma hex_digit_is_hex (d : Z) : 0 <= d < 16 -> is_hex (hex_digit d) = true.
Proof.
  intros H.
  assert (d = 0 \/ d = 1 \/ d = 2 \/ d = 3 \/ d = 4 \/ d = 5 \/ d = 6 \/ d = 7
          \/ d = 8 \/ d = 9 \/ d = 10 \/ d = 11 \/ d = 12 \/ d = 13 \/ d = 14
          \/ d = 15) as Hd by lia.
  repeat (destruct Hd as [->|Hd]; [reflexivity|]). now subst.
Qed.

(** A number of [k+1] hexadecimal digits is printed as that many digits. *)
Lemma hex_go_digits (k : nat) :
  forall (fuel : nat) (n : Z) (acc : string),
    (k < fuel)%nat ->
    16 ^ Z.of_nat k <= n < 16 ^ (Z.of_nat k + 1) ->
    exists ds,
      hex_go fuel n acc = ds +:+ acc
      /\ String.length ds = S k
      /\ all_chars is_hex ds = true.
Proof.
  induction k as [|k IH]; intros fuel n acc Hfuel Hn.
  - destruct fuel as [|f]; [lia|]. cbn in Hn.
    assert (n / 16 = 0) as Hq by (apply Z.div_small; lia).
    exists (String (hex_digit (n mod 16)) "").
    cbn [hex_go]. rewrite Hq. cbn. split; [reflexivity|]. split; [reflexivity|].
    rewrite hex_digit_is_hex; [reflexivity|]. apply Z.mod_pos_bound; lia.
  - destruct fuel as [|f]; [lia|].
    replace (Z.of_nat (S k)) with (Z.of_nat k + 1) in Hn by lia.
    assert (0 < 16 ^ Z.of_nat k) as Hpos by (apply Z.pow_pos_nonneg; lia).
    rewrite (Z.pow_add_r 16 (Z.of_nat k + 1) 1) in Hn by lia.
    rewrite (Z.pow_add_r 16 (Z.of_nat k) 1) in Hn by lia.
    change (16 ^ 1) with 16 in Hn.
    assert (16 ^ Z.of_nat k <= n / 16) as Hlo
      by (apply Z.div_le_lower_bound; lia).
    assert (n / 16 < 16 ^ Z.of_nat k * 16) as Hhi
      by (apply Z.div_lt_upper_bound; lia).
    destruct (IH f (n / 16) (String (hex_digit (n mod 16)) acc)) as
      (ds & Hgo & Hlen & Hall); [lia| |].
    { rewrite (Z.pow_add_r 16 (Z.of_nat k) 1) by lia.
      change (16 ^ 1) with 16. lia. }
    exists (ds +:+ String (hex_digit (n mod 16)) "").
    cbn [hex_go]. destruct (n / 16 =? 0) eqn:Hz; [apply Z.eqb_eq in Hz; lia|].
    rewrite Hgo. split; [|split].
    + now rewrite StringFacts.append_assoc.
    + rewrite StringFacts.length_append, Hlen. cbn. lia.
    + rewrite all_chars_app, Hall. cbn.
      rewrite hex_digit_is_hex; [reflexivity|]. apply Z.mod_pos_bound; lia.
Qed.

(** A draw of [randomInt(16^8, 16^9)] prints as nine hexadecimal digits. *)
Lemma toString16_nine (n : Z) :
  16 ^ 8 <= n < 16 ^ 9 ->
  String.length (toString16 n) = 9%nat /\ all_chars is_hex (toString16 n) = true.
Proof.
  intros Hn. unfold toString16.
  assert (32 <= Z.log2 n) as Hlog.
  { change 32 with (Z.log2 (16 ^ 8)). apply Z.log2_le_mono. lia. }
  destruct (hex_go_digits 8 (S (Z.to_nat (Z.log2 n))) n "") as
    (ds & Hgo & Hlen & Hall); [lia|exact Hn|].
  rewrite Hgo, StringFacts.append_nil_r. now split.
Qed.

(** [processFile], when the platform resolves the file and the download
    succeeds: the name is the draw in hexadecimal followed by the lowercased
    [extname] of the link. *)
Lemma processFile_name s e fileId w href :
  getFileLink_result w fileId = inr href ->
  (forall dest, fetch_result w href dest = None) ->
  completion (processFile (module_at s) e fileId w)
  = Normal (toString16 (randomInt_result w (16 ^ 8) (16 ^ 9))
            +:+ toLowerCase (extname href)).
Proof.
  intros Hl Hf. unfold processFile. run. rewrite Hl. run. rewrite Hf. run.
  reflexivity.
Qed.

(** C2, for a video whose link ends in [.mp4] and the draw 16^8: the file is
    stored as [100000000.mp4]; the two buttons sent carry the payloads
    [exist:100000000.mp4] and [remove:100000000.mp4]; the name does not match
    the pattern of the actions (its extension holds a digit), and a press of
    either button runs no handler. *)
Theorem mp4_name_is_not_routed s w m :
  completion (processFile (module_at sample_dates) sample_env "F"
                (sample_world None None mp4_link))
  = Normal "100000000.mp4"
  /\ payloads (calls (onMessage (module_at sample_dates) sample_env
                        (video_message (-1001))
                        (sample_world None None mp4_link)))
     = ["exist:100000000.mp4"; "remove:100000000.mp4"]
  /\ is_file_name "100000000.mp4" = false
  /\ calls (onCallbackQuery (module_at s) sample_env
              (press m "exist:100000000.mp4") w) = []
  /\ calls (onCallbackQuery (module_at s) sample_env
              (press m "remove:100000000.mp4") w) = [].
Proof.
  split; [now rewrite (processFile_name _ _ _ _ mp4_link)|].
  split; [vm_compute; reflexivity|].
  repeat split.
Qed.

End BotFacts.

(* ===================================================================== *)
(** * Printed integers                                                     *)
(* ===================================================================== *)

Module PrettyFacts.

Import Bot BotFacts MoreObs.

Lemma all_chars_impl (p q : ascii -> bool) (s : string) :
  (forall c, p c = true -> q c = true) ->
  all_chars p s = true -> all_chars q s = true.
Proof.
  intros Hpq. induction s as [|c r IH]; [reflexivity|].
  cbn [all_chars]. intros H. apply andb_true_iff in H as [Hc Hr].
  now rewrite (Hpq c Hc), IH.
Qed.

(** What a digit is not: a space, a sign, the [x] of a prefix, a comma, a
    colon. *)
Lemma digit_is_plain (c : ascii) :
  is_digit c = true ->
  is_space c = false /\ char_eqb c "-" = false /\ char_eqb c "+" = false
  /\ char_eqb c "x" = false /\ char_eqb c "X" = false
  /\ char_eqb c "," = false /\ char_eqb c ":" = false.
Proof.
  destruct c as [[] [] [] [] [] [] [] []]; intros H;
    try discriminate H; repeat split.
Qed.

Lemma pretty_N_char_digit (d : N) :
  (d < 10)%N ->
  is_digit (pretty_N_char d) = true
  /\ digit_of (pretty_N_char d) = Some (Z.of_N d).
Proof.
  intros H.
  assert (d = 0 \/ d = 1 \/ d = 2 \/ d = 3 \/ d = 4 \/ d = 5 \/ d = 6 \/ d = 7
          \/ d = 8 \/ d = 9)%N as Hd by lia.
  repeat (destruct Hd as [->|Hd]; [split; reflexivity|]).
  subst. split; reflexivity.
Qed.

Lemma pretty_N_go_app (x : N) :
  forall s, pretty_N_go x s = pretty_N_go x "" +:+ s.
Proof.
  induction (N.lt_wf_0 x) as [x _ IH]; intros s.
  assert (x = 0 \/ 0 < x)%N as [->|Hx] by lia; [reflexivity|].
  rewrite (pretty_N_go_step x s), (pretty_N_go_step x "") by exact Hx.
  assert (Hlt : (x `div` 10 < x)%N) by (apply N.div_lt; lia).
  rewrite (IH _ Hlt (String _ s)), (IH _ Hlt (String _ "")).
  now rewrite StringFacts.append_assoc.
Qed.

Lemma pretty_N_go_digits (x : N) : all_chars is_digit (pretty_N_go x "") = true.
Proof.
  induction (N.lt_wf_0 x) as [x _ IH].
  assert (x = 0 \/ 0 < x)%N as [->|Hx] by lia; [reflexivity|].
  rewrite pretty_N_go_step, pretty_N_go_app, all_chars_app by exact Hx.
  rewrite IH by (apply N.div_lt; lia). cbn [all_chars andb].
  assert (Hd : (x `mod` 10 < 10)%N) by (apply N.mod_lt; lia).
  now rewrite (proj1 (pretty_N_char_digit _ Hd)).
Qed.

(** Reading back the digits of a positive number: the value read so far is
    shifted by a power of ten and the number added. *)
Lemma digits_of_pretty (x : N) :
  (0 < x)%N ->
  exists p : Z,
    forall (s : string) (acc : option Z),
      digits_prefix 10 (pretty_N_go x s) acc
      = digits_prefix 10 s (Some (default 0 acc * p + Z.of_N x)).
Proof.
  induction (N.lt_wf_0 x) as [x _ IH]. intros Hx.
  assert (Hd : (x `mod` 10 < 10)%N) by (apply N.mod_lt; lia).
  destruct (pretty_N_char_digit _ Hd) as [_ Hdig].
  assert (Hsplit : Z.of_N x = Z.of_N (x `div` 10) * 10 + Z.of_N (x `mod` 10)).
  { rewrite N2Z.inj_div, N2Z.inj_mod. change (Z.of_N 10) with 10.
    pose proof (Z.div_mod (Z.of_N x) 10). lia. }
  assert (x `div` 10 = 0 \/ 0 < x `div` 10)%N as [Hq|Hq] by lia.
  - exists 10. intros s acc. rewrite pretty_N_go_step by exact Hx.
    rewrite Hq, pretty_N_go_0. cbn [digits_prefix]. rewrite Hdig.
    replace (Z.of_N (x `mod` 10) <? 10) with true
      by (symmetry; apply Z.ltb_lt; lia).
    rewrite Hsplit, Hq. destruct acc; reflexivity.
  - destruct (IH (x `div` 10)%N) as [p Hp]; [apply N.div_lt; lia | exact Hq |].
    exists (p * 10). intros s acc. rewrite pretty_N_go_step by exact Hx.
    rewrite Hp. cbn [digits_prefix]. rewrite Hdig.
    replace (Z.of_N (x `mod` 10) <? 10) with true
      by (symmetry; apply Z.ltb_lt; lia).
    rewrite Hsplit. destruct acc as [a|]; cbn; do 2 f_equal; ring.
Qed.

(** The printed form of a positive number: at least one character, digits
    only, read back as the number. *)
Lemma pretty_pos_shape (x : positive) :
  exists c r,
    pretty (Z.pos x) = String c r
    /\ is_digit c = true
    /\ all_chars is_digit r = true
    /\ digits_prefix 10 (String c r) None = Some (Z.pos x).
Proof.
  assert (Hp : pretty (Z.pos x) = pretty_N_go (N.pos x) "").
  { unfold pretty, pretty_Z, pretty_positive, pretty_N.
    destruct (decide (N.pos x = 0%N)); [discriminate|reflexivity]. }
  pose proof (pretty_N_go_digits (N.pos x)) as Hall.
  destruct (digits_of_pretty (N.pos x)) as [p Hval]; [lia|].
  specialize (Hval "" None). cbn [digits_prefix default] in Hval.
  rewrite Hp. destruct (pretty_N_go (N.pos x) "") as [|c r] eqn:Hgo.
  - discriminate Hval.
  - exists c, r. cbn [all_chars] in Hall. apply andb_true_iff in Hall as [Hc Hr].
    repeat split; assumption.
Qed.

Lemma pretty_decimal (z : Z) : all_chars is_decimal (pretty z) = true.
Proof.
  assert (Hd : forall c, is_digit c = true -> is_decimal c = true).
  { intros c Hc. unfold is_decimal. now rewrite Hc. }
  destruct z as [|x|x].
  - reflexivity.
  - destruct (pretty_pos_shape x) as (c & r & -> & Hc & Hr & _).
    cbn [all_chars]. rewrite (Hd c Hc). now apply (all_chars_impl is_digit).
  - change (pretty (Z.neg x)) with ("-" +:+ pretty (Z.pos x)).
    destruct (pretty_pos_shape x) as (c & r & -> & Hc & Hr & _).
    change ("-" +:+ String c r) with (String "-" (String c r)).
    cbn [all_chars]. change (is_decimal "-") with true.
    rewrite (Hd c Hc). now apply (all_chars_impl is_digit).
Qed.

(** The route [parseInt] takes with radix 0 and with radix 10. *)
Lemma parseInt_radix_0 (input : string) :
  parseInt input 0
  = let '(sign, body) := strip_sign (trim_start input) in
    let '(R, body) := match strip_0x body with
                      | Some r => (16, r)
                      | None => (10, body)
                      end in
    match digits_prefix R body None with
    | None => None
    | Some v => Some (sign * v)
    end.
Proof.
  unfold parseInt. destruct (strip_sign (trim_start input)) as [sign body].
  reflexivity.
Qed.

Lemma parseInt_radix_10 (input : string) :
  parseInt input 10
  = let '(sign, body) := strip_sign (trim_start input) in
    match digits_prefix 10 body None with
    | None => None
    | Some v => Some (sign * v)
    end.
Proof.
  unfold parseInt. destruct (strip_sign (trim_start input)) as [sign body].
  reflexivity.
Qed.

(** [parseInt] of a string of digits, in base 10 (radix 10, or radix 0 or
    absent, the string carrying no [0x]). *)
Lemma parseInt_digits (c : ascii) (r : string) (radix : Z) :
  radix = 0 \/ radix = 10 ->
  is_digit c = true -> all_chars is_digit r = true ->
  parseInt (String c r) radix = digits_prefix 10 (String c r) None
  /\ parseInt (String "-" (String c r)) radix
     = (fun v => - v) <$> digits_prefix 10 (String c r) None.
Proof.
  intros Hradix Hc Hr.
  destruct (digit_is_plain c Hc) as (Hsp & Hminus & Hplus & _).
  assert (Hx : strip_0x (String c r) = None).
  { unfold strip_0x. destruct r as [|x r']; [reflexivity|].
    cbn [all_chars] in Hr. apply andb_true_iff in Hr as [Hxd _].
    destruct (digit_is_plain x Hxd) as (_ & _ & _ & Hlx & Hux & _).
    rewrite Hlx, Hux. now rewrite andb_false_r. }
  assert (Hpos : strip_sign (trim_start (String c r)) = (1, String c r)).
  { cbn [trim_start]. rewrite Hsp. unfold strip_sign. now rewrite Hminus, Hplus. }
  assert (Hneg : strip_sign (trim_start (String "-" (String c r)))
                 = (-1, String c r)) by reflexivity.
  destruct Hradix as [-> | ->];
    rewrite ?parseInt_radix_0, ?parseInt_radix_10, Hpos, Hneg, ?Hx;
    destruct (digits_prefix 10 (String c r) None) as [v|];
    split; try reflexivity; cbn; f_equal; lia.
Qed.

(** [parseInt(String(n))] is [n], for every integer, with radix 10 and with
    radix 0. *)
Lemma parseInt_pretty (z : Z) (radix : Z) :
  radix = 0 \/ radix = 10 -> parseInt (pretty z) radix = Some z.
Proof.
  intros Hradix. destruct z as [|x|x].
  - destruct Hradix as [-> | ->]; reflexivity.
  - destruct (pretty_pos_shape x) as (c & r & -> & Hc & Hr & Hv).
    rewrite (proj1 (parseInt_digits c r radix Hradix Hc Hr)). exact Hv.
  - change (pretty (Z.neg x)) with ("-" +:+ pretty (Z.pos x)).
    destruct (pretty_pos_shape x) as (c & r & -> & Hc & Hr & Hv).
    change ("-" +:+ String c r) with (String "-" (String c r)).
    rewrite (proj2 (parseInt_digits c r radix Hradix Hc Hr)), Hv. reflexivity.
Qed.

Lemma split_without_sep (sep : ascii) (s : string) :
  all_chars (fun c => negb (char_eqb c sep)) s = true -> split sep s = [s].
Proof.
  induction s as [|c r IH]; [reflexivity|].
  cbn [all_chars split]. intros H. apply andb_true_iff in H as [Hc Hr].
  apply negb_true_iff in Hc. rewrite Hc, (IH Hr). reflexivity.
Qed.

Lemma decimal_is_plain (c : ascii) :
  is_decimal c = true ->
  char_eqb c "," = false /\ char_eqb c ":" = false.
Proof.
  destruct c as [[] [] [] [] [] [] [] []]; intros H;
    try discriminate H; repeat split.
Qed.

End PrettyFacts.

(* ===================================================================== *)
(** * More on the logger                                                   *)
(* ===================================================================== *)

Module LoggerMore.

Import Logger LoggerObs LoggerFacts Bot BotFacts MoreObs PrettyFacts.

Lemma thread_name_eq (l : string) (k : Z) :
  thread_name l k = l +:+ ":" +:+ pretty k.
Proof. apply format_thread. Qed.

(** A string is cut in one way only at its last colon. *)
Lemma colon_split (l1 : string) :
  forall l2 d1 d2 : string,
    all_chars (fun c => negb (char_eqb c ":")) d1 = true ->
    all_chars (fun c => negb (char_eqb c ":")) d2 = true ->
    l1 +:+ ":" +:+ d1 = l2 +:+ ":" +:+ d2 ->
    l1 = l2 /\ d1 = d2.
Proof.
  assert (Hno : forall a d,
             all_chars (fun c => negb (char_eqb c ":")) (a +:+ ":" +:+ d) = false).
  { intros a d. rewrite all_chars_app. cbn. apply andb_false_r. }
  induction l1 as [|c l1 IH]; intros [|c2 l2] d1 d2 H1 H2 Heq.
  - change (String ":" d1 = String ":" d2) in Heq.
    injection Heq as Hd. now split.
  - change (String ":" d1 = String c2 (l2 +:+ ":" +:+ d2)) in Heq.
    injection Heq as _ Hd. rewrite Hd, Hno in H1. discriminate H1.
  - change (String c (l1 +:+ ":" +:+ d1) = String ":" d2) in Heq.
    injection Heq as _ Hd. rewrite <- Hd, Hno in H2. discriminate H2.
  - change (String c (l1 +:+ ":" +:+ d1) = String c2 (l2 +:+ ":" +:+ d2)) in Heq.
    injection Heq as Hc Heq.
    destruct (IH l2 d1 d2 H1 H2 Heq) as [Hl Hd]. now subst.
Qed.

Lemma pretty_no_colon (k : Z) :
  all_chars (fun c => negb (char_eqb c ":")) (pretty k) = true.
Proof.
  apply (all_chars_impl is_decimal); [|apply pretty_decimal].
  intros c Hc. now rewrite (proj2 (decimal_is_plain c Hc)).
Qed.

Lemma thread_name_inj (l1 l2 : string) (k1 k2 : Z) :
  thread_name l1 k1 = thread_name l2 k2 -> l1 = l2 /\ k1 = k2.
Proof.
  rewrite !thread_name_eq. intros H.
  apply colon_split in H as [-> Hk]; try apply pretty_no_colon.
  split; [reflexivity|]. now apply (inj pretty).
Qed.

(** The calls of a run of [createThreads] get, label by label, numbers that
    do not repeat and start from the next number of the label. *)
Lemma createThreads_pairs (base : Logger) (labels : list string) :
  forall w : World,
  exists (ids : list Z) (w' : World),
    createThreads base labels w
    = mkRun (Normal (zip_with (fun l k => scoped (thread_name l k) base)
                       labels ids)) w' []
    /\ length ids = length labels
    /\ NoDup (zip labels ids)
    /\ forall l k, (l, k) ∈ zip labels ids -> next_id l w <= k.
Proof.
  induction labels as [|x r IH]; intros w.
  - exists [], w. repeat split; [constructor | intros l k H; inversion H].
  - destruct (IH (with_lastThreadIds
                    (<[x := next_id x w]> (lastThreadIds w)) w))
      as (ids & w' & Hrun & Hlen & Hnd & Hge).
    assert (Hnext : forall l,
               next_id l (with_lastThreadIds
                            (<[x := next_id x w]> (lastThreadIds w)) w)
               = if decide (x = l) then next_id x w + 1 else next_id l w).
    { intros l. unfold next_id. cbn [lastThreadIds with_lastThreadIds].
      destruct (decide (x = l)) as [->|Hne].
      - now rewrite lookup_insert_eq.
      - now rewrite lookup_insert_ne. }
    exists (next_id x w :: ids), w'. split; [|split; [|split]].
    + cbn [createThreads].
      cbv beta iota zeta delta [mbind M_bind mret M_ret Eff.bind Eff.ret].
      rewrite createThread_run, Hrun. cbn [zip_with].
      rewrite thread_name_eq. reflexivity.
    + cbn. lia.
    + cbn [zip zip_with]. apply NoDup_cons. split; [|exact Hnd].
      intros Hin. apply Hge in Hin. rewrite Hnext in Hin.
      destruct (decide (x = x)); [lia | congruence].
    + intros l k Hin. cbn [zip zip_with] in Hin.
      apply elem_of_cons in Hin as [Heq|Hin].
      * injection Heq as -> ->. lia.
      * apply Hge in Hin. rewrite Hnext in Hin.
        destruct (decide (x = l)) as [->|Hne]; lia.
Qed.

(** X1. Whatever the state of the counters and whatever the labels, the
    threads created in one process have pairwise distinct names: a label and
    a number are read back from a name in one way, and no label gets a
    number twice. *)
Theorem thread_names_are_distinct (base : Logger) (labels : list string) (w : World) :
  exists ids : list Z,
    completion (createThreads base labels w)
    = Normal (zip_with (fun l k => scoped (thread_name l k) base) labels ids)
    /\ NoDup (zip_with thread_name labels ids).
Proof.
  destruct (createThreads_pairs base labels w) as (ids & w' & Hrun & _ & Hnd & _).
  exists ids. split; [now rewrite Hrun|].
  rewrite zip_with_zip. apply NoDup_fmap_2_strong; [|exact Hnd].
  intros [l1 k1] [l2 k2] _ _ Heq. cbn in Heq.
  now destruct (thread_name_inj _ _ _ _ Heq) as [-> ->].
Qed.

(** X2. [createThread] writes nothing, reads no clock and does not throw;
    it sets the counter of its label to the number it used, one more than
    the counter was (or 1), and leaves the counter of every other label as it
    was. *)
Theorem createThread_touches_one_counter (base : Logger) (l : string) (w : World) :
  let r := createThread base l w in
  calls r = []
  /\ completion r = Normal (scoped (thread_name l (default 0 (lastThreadIds w !! l) + 1)) base)
  /\ clock_reads (final r) = clock_reads w
  /\ lastThreadIds (final r) !! l = Some (default 0 (lastThreadIds w !! l) + 1)
  /\ forall l', l' <> l -> lastThreadIds (final r) !! l' = lastThreadIds w !! l'.
Proof.
  cbv zeta. rewrite createThread_run, thread_name_eq.
  cbn [calls completion final lastThreadIds clock_reads with_lastThreadIds].
  repeat split.
  - apply lookup_insert_eq.
  - intros l' Hne. now apply lookup_insert_ne.
Qed.

(** X3. The debug switch is read at each write, in the world of the write:
    through the same logger, bare or scoped, a debug write makes no call
    while DEBUG is unset or empty and writes one line to the console once it
    is set; the other severities write their line whatever DEBUG is. No write
    changes the world. *)
Theorem debug_is_gated_at_each_write (s : level -> Date) (name message : string)
    (params : list jsval) (w : World) :
  let quiet := env_DEBUG w = None \/ env_DEBUG w = Some "" in
  Forall (fun lg =>
            (quiet -> debug lg message params w = mkRun (Normal tt) w [])
            /\ (~ quiet -> exists ln, debug lg message params w
                                      = mkRun (Normal tt) w [Console Debug ln])
            /\ (exists ln, info lg message params w
                           = mkRun (Normal tt) w [Console Info ln])
            /\ (exists ln, warn lg message params w
                           = mkRun (Normal tt) w [Console Warn ln])
            /\ (exists ln, error lg message params w
                           = mkRun (Normal tt) w [Console Error ln]))
    [base_at s; scoped name (base_at s)].
Proof.
  cbv zeta.
  assert (Hsup : suppressed Debug w = true
                 <-> env_DEBUG w = None \/ env_DEBUG w = Some "").
  { unfold suppressed. destruct (env_DEBUG w) as [d|].
    - destruct (decide (d = "")) as [->|Hd].
      + split; [now right | reflexivity].
      + split; [discriminate | intros [H|H]; congruence].
    - split; [now left | reflexivity]. }
  assert (Hall : forall lg,
             (forall l, exists pre,
                 op l lg message params w = mkRun (Normal tt) w (written l pre w)) ->
             (env_DEBUG w = None \/ env_DEBUG w = Some "" ->
              debug lg message params w = mkRun (Normal tt) w [])
             /\ (~ (env_DEBUG w = None \/ env_DEBUG w = Some "") ->
                 exists ln, debug lg message params w
                            = mkRun (Normal tt) w [Console Debug ln])
             /\ (exists ln, info lg message params w
                            = mkRun (Normal tt) w [Console Info ln])
             /\ (exists ln, warn lg message params w
                            = mkRun (Normal tt) w [Console Warn ln])
             /\ (exists ln, error lg message params w
                            = mkRun (Normal tt) w [Console Error ln])).
  { intros lg Hw. split; [|split; [|split; [|split]]].
    - intros Hq. destruct (Hw Debug) as [pre Hpre]. cbn [op] in Hpre.
      rewrite Hpre. unfold written. now rewrite (proj2 Hsup Hq).
    - intros Hq. destruct (Hw Debug) as [pre Hpre]. cbn [op] in Hpre.
      rewrite Hpre. unfold written.
      destruct (suppressed Debug w);
        [exfalso; apply Hq, Hsup; reflexivity | now eexists].
    - destruct (Hw Info) as [pre Hpre]. cbn [op] in Hpre.
      rewrite Hpre. now eexists.
    - destruct (Hw Warn) as [pre Hpre]. cbn [op] in Hpre.
      rewrite Hpre. now eexists.
    - destruct (Hw Error) as [pre Hpre]. cbn [op] in Hpre.
      rewrite Hpre. now eexists. }
  constructor; [|constructor; [|constructor]];
    apply Hall; intros l; eexists.
  - apply base_write.
  - apply scoped_write.
Qed.

End LoggerMore.

(* ===================================================================== *)
(** * More on the main module                                              *)
(* ===================================================================== *)

Module BotMore.

Import Logger LoggerObs LoggerFacts Bot BotObs BotFacts MoreObs PrettyFacts.

(** ** getFileIds *)

Lemma photo_loop_member (photos : list DocumentAble) :
  forall st : Z * option DocumentAble,
    match snd (fold_left photo_step photos st) with
    | Some p => snd st = Some p \/ p ∈ photos
    | None => snd st = None /\ photos = []
    end.
Proof.
  induction photos as [|x r IH]; intros [sz tmp].
  - cbn. destruct tmp; auto.
  - cbn [fold_left]. specialize (IH (photo_step (sz, tmp) x)).
    destruct (snd (fold_left photo_step r (photo_step (sz, tmp) x))) as [p|].
    + destruct IH as [IH|IH].
      * unfold photo_step in IH.
        destruct (_ || _) in IH; cbn in IH.
        -- injection IH as ->. right. apply list_elem_of_here.
        -- now left.
      * right. now apply list_elem_of_further.
    + destruct IH as [IH _]. unfold photo_step in IH.
      destruct tmp; cbn in IH; [|discriminate IH].
      destruct (_ && _) in IH; discriminate IH.
Qed.

Lemma largest_photo_member (photos : list DocumentAble) :
  match largest_photo photos with
  | Some p => p ∈ photos
  | None => photos = []
  end.
Proof.
  unfold largest_photo. pose proof (photo_loop_member photos (0, None)) as H.
  destruct (snd (fold_left photo_step photos (0, None))).
  - now destruct H as [H|H].
  - now destruct H.
Qed.

Lemma key_loop (m : Message) :
  match first_key [sticker; audio; voice; video; document] m with
  | Some f =>
      file_type f <> photo
      /\ message_key (file_type f) m = Some (file_obj f)
      /\ forall k, (kind_rank k < kind_rank (file_type f))%nat ->
                   message_key k m = None
  | None => forall k, message_key k m = None
  end.
Proof.
  cbn [first_key message_key].
  destruct (msg_sticker m) eqn:H1;
    [|destruct (msg_audio m) eqn:H2;
      [|destruct (msg_voice m) eqn:H3;
        [|destruct (msg_video m) eqn:H4;
          [|destruct (msg_document m) eqn:H5]]]];
    cbn [file_type file_obj message_key];
    try (split; [discriminate|split; [assumption|]]);
    intros k; try intros Hk; destruct k; cbn in *; try lia; congruence.
Qed.

(** X4. [getFileIds] answers [false] exactly when the message carries no
    attachment of any of the six kinds, a photo list without variants
    counting as none. *)
Theorem getFileIds_false_iff_no_attachment (m : Message) :
  getFileIds m = None <-> forall k, attachments k m = [].
Proof.
  unfold getFileIds. pose proof (key_loop m) as Hkeys. split.
  - intros H k.
    assert (Hp : attachments photo m = []).
    { cbn. destruct (msg_photo m) as [photos|]; [|reflexivity].
      pose proof (largest_photo_member photos) as Hl.
      destruct (largest_photo photos); [discriminate H | exact Hl]. }
    assert (Hk : first_key [sticker; audio; voice; video; document] m = None).
    { destruct (msg_photo m) as [photos|]; [|exact H].
      destruct (largest_photo photos); [discriminate H | exact H]. }
    rewrite Hk in Hkeys.
    destruct k; [exact Hp | ..]; cbn [attachments]; now rewrite Hkeys.
  - intros H.
    assert (Hp : match msg_photo m with
                 | Some photos =>
                     match largest_photo photos with
                     | Some tmp => Some {| file_type := photo; file_obj := tmp |}
                     | None => None
                     end
                 | None => None
                 end = None).
    { specialize (H photo). cbn in H.
      destruct (msg_photo m) as [photos|]; [|reflexivity].
      cbn in H. now subst. }
    rewrite Hp.
    destruct (first_key [sticker; audio; voice; video; document] m) as [f|];
      [|reflexivity].
    destruct Hkeys as (Hne & Hkey & _). specialize (H (file_type f)).
    destruct (file_type f); [congruence | ..]; cbn [attachments] in H;
      rewrite Hkey in H; discriminate H.
Qed.

(** X5. The file [getFileIds] returns is an attachment the message carries,
    of the kind the result is tagged with, and that kind is the first one
    present in the order photo, sticker, audio, voice, video, document:
    every kind before it is absent from the message. *)
Theorem getFileIds_first_kind_present (m : Message) (f : File) :
  getFileIds m = Some f ->
  file_obj f ∈ attachments (file_type f) m
  /\ forall k, (kind_rank k < kind_rank (file_type f))%nat -> attachments k m = [].
Proof.
  unfold getFileIds. pose proof (key_loop m) as Hkeys. intros H.
  assert (Hcases :
            (exists photos p, msg_photo m = Some photos /\ p ∈ photos
                              /\ f = {| file_type := photo; file_obj := p |})
            \/ (attachments photo m = []
                /\ first_key [sticker; audio; voice; video; document] m = Some f)).
  { destruct (msg_photo m) as [photos|] eqn:Hm; cbn [attachments default].
    - pose proof (largest_photo_member photos) as Hl.
      destruct (largest_photo photos) as [p|].
      + left. exists photos, p. injection H as <-. auto.
      + right. rewrite Hm. cbn. split; [exact Hl | exact H].
    - right. rewrite Hm. split; [reflexivity | exact H]. }
  destruct Hcases as [(photos & p & Hm & Hp & ->)|[Hnone Hk]].
  - cbn [file_type file_obj attachments kind_rank]. rewrite Hm. cbn.
    split; [exact Hp | intros k Hlt; lia].
  - rewrite Hk in Hkeys. destruct Hkeys as (Hne & Hkey & Hbefore). split.
    + destruct (file_type f); [congruence | ..]; cbn [attachments];
        rewrite Hkey; apply list_elem_of_here.
    + intros k Hlt. destruct k; [exact Hnone | ..]; cbn [attachments];
        now rewrite (Hbefore _ Hlt).
Qed.

Lemma getFileIds_first_kind_present_witness :
  file_obj {| file_type := video; file_obj := variant "F" (Some 1000) |}
    ∈ attachments video (ctx_message (video_message (-1001)))
  /\ forall k, (kind_rank k < kind_rank video)%nat ->
               attachments k (ctx_message (video_message (-1001))) = [].
Proof.
  apply (getFileIds_first_kind_present (ctx_message (video_message (-1001)))
           {| file_type := video; file_obj := variant "F" (Some 1000) |}).
  reflexivity.
Defined.

(** ** processFile *)

(** The three ways a run of [processFile] goes. *)
Lemma processFile_run s e fileId w :
  processFile (module_at s) e fileId w
  = match getFileLink_result w fileId with
    | inl err => mkRun (Thrown err) w [GetFileLink fileId]
    | inr href =>
        let name := stored_name w href in
        let dest := path_join (savePath e) name in
        match fetch_result w href dest with
        | Some err => mkRun (Thrown err) w [GetFileLink fileId; FetchTo href dest]
        | None =>
            mkRun (Normal name) w
              ([GetFileLink fileId; FetchTo href dest]
               ++ written Info (line s Info "main"
                                  ("file " +:+ name +:+ " is created.")) w)
        end
    end.
Proof.
  unfold processFile, stored_name. run.
  destruct (getFileLink_result w fileId) as [err|href]; run; [reflexivity|].
  destruct (fetch_result w href _) as [err|]; run; [reflexivity|].
  cbn [app]. now rewrite app_nil_r.
Qed.

(** X6. When the platform does not resolve the file, [processFile] throws
    the platform's error after that one call: it draws no name, downloads
    nothing and writes no line. When the link is resolved and the download
    fails, it throws the download's error after the two calls, and the line
    announcing the file is not written. *)
Theorem processFile_failures s e fileId w err :
  (getFileLink_result w fileId = inl err ->
   processFile (module_at s) e fileId w = mkRun (Thrown err) w [GetFileLink fileId])
  /\ (forall href,
        getFileLink_result w fileId = inr href ->
        fetch_result w href (path_join (savePath e) (stored_name w href)) = Some err ->
        processFile (module_at s) e fileId w
        = mkRun (Thrown err) w
            [GetFileLink fileId;
             FetchTo href (path_join (savePath e) (stored_name w href))]).
Proof.
  rewrite processFile_run. split.
  - now intros ->.
  - intros href -> Hf. cbv zeta. now rewrite Hf.
Qed.

(** X7. When the link is resolved, the download succeeds and the draw is in
    [16^8, 16^9), [processFile] returns nine lowercase hexadecimal digits
    followed by the lowercased [extname] of the link, having downloaded the
    link to the file of that name in the save directory. *)
Theorem processFile_stores_under_hex_name s e fileId w href :
  getFileLink_result w fileId = inr href ->
  (forall dest, fetch_result w href dest = None) ->
  16 ^ 8 <= randomInt_result w (16 ^ 8) (16 ^ 9) < 16 ^ 9 ->
  exists digits : string,
    String.length digits = 9%nat
    /\ all_chars is_hex digits = true
    /\ completion (processFile (module_at s) e fileId w)
       = Normal (digits +:+ toLowerCase (extname href))
    /\ external (calls (processFile (module_at s) e fileId w))
       = [GetFileLink fileId;
          FetchTo href
            (path_join (savePath e) (digits +:+ toLowerCase (extname href)))].
Proof.
  intros Hl Hf Hn. destruct (toString16_nine _ Hn) as [Hlen Hhex].
  exists (toString16 (randomInt_result w (16 ^ 8) (16 ^ 9))).
  rewrite processFile_run, Hl. cbv zeta. rewrite Hf. unfold stored_name.
  cbn [completion calls]. rewrite external_app, external_written.
  repeat split; assumption.
Qed.

Lemma processFile_stores_under_hex_name_witness :
  exists digits : string,
    String.length digits = 9%nat
    /\ all_chars is_hex digits = true
    /\ completion (processFile (module_at sample_dates) sample_env "F"
                     (download_world (Some jpg_link) None))
       = Normal (digits +:+ ".jpg")
    /\ external (calls (processFile (module_at sample_dates) sample_env "F"
                          (download_world (Some jpg_link) None)))
       = [GetFileLink "F";
          FetchTo jpg_link (path_join "/data" (digits +:+ ".jpg"))].
Proof.
  apply (processFile_stores_under_hex_name sample_dates sample_env "F"
           (download_world (Some jpg_link) None) jpg_link).
  - reflexivity.
  - reflexivity.
  - cbn. lia.
Defined.

(** ** The message handler *)

(** X8. A message of an enabled chat that carries a file, when the file is
    resolved and downloaded: the handler makes four calls beside the console,
    in this order: the resolution, the download to the save directory, the
    reply in the chat (quoting the message, sent even if the message is gone,
    with the button [exist:<name>]) and the broadcast to the audit channel
    (with the button [remove:<name>]); both messages are HTML and carry the
    same text, and [<name>] is the name the file was stored under. *)
Theorem onMessage_archives_and_notifies s e ctx w file href :
  includes (enableGroups e) (chat_id (ctx_message ctx)) = true ->
  getFileIds (ctx_message ctx) = Some file ->
  getFileLink_result w (file_id (file_obj file)) = inr href ->
  (forall dest, fetch_result w href dest = None) ->
  let name := stored_name w href in
  let text := notification e ctx file name in
  completion (onMessage (module_at s) e ctx w) = Normal tt
  /\ external (calls (onMessage (module_at s) e ctx w))
     = [GetFileLink (file_id (file_obj file));
        FetchTo href (path_join (savePath e) name);
        SendMessage (JNum (chat_id (ctx_message ctx))) text
          {| reply_to_message_id := Some (message_id (ctx_message ctx));
             allow_sending_without_reply := Some true;
             parse_mode := Some "HTML";
             reply_markup :=
               Some [[ {| btn_text := "Does file exist now?";
                          btn_data := "exist:" +:+ name |} ]] |};
        SendMessage (JStr (infoChannel e)) text
          {| reply_to_message_id := None;
             allow_sending_without_reply := None;
             parse_mode := Some "HTML";
             reply_markup :=
               Some [[ {| btn_text := "Delete it.";
                          btn_data := "remove:" +:+ name |} ]] |}].
Proof.
  intros Hinc Hfile Hl Hf name text. unfold onMessage.
  rewrite Hinc, Hfile. cbn [negb]. run. rewrite processFile_run. run.
  rewrite Hl. cbv zeta. rewrite Hf. run.
  split; [reflexivity|]. finish_external.
Qed.

Lemma onMessage_archives_and_notifies_witness :
  payloads (external (calls (onMessage (module_at sample_dates) sample_env
                               (video_message (-1001))
                               (download_world (Some jpg_link) None))))
  = ["exist:fffffffff.jpg"; "remove:fffffffff.jpg"].
Proof.
  rewrite (proj2 (onMessage_archives_and_notifies sample_dates sample_env
                    (video_message (-1001))
                    (download_world (Some jpg_link) None)
                    {| file_type := video; file_obj := variant "F" (Some 1000) |}
                    jpg_link eq_refl eq_refl eq_refl (fun _ => eq_refl))).
  reflexivity.
Defined.

(** X9. A message of an enabled chat that carries a file, when the file is
    not resolved or its download fails: the handler completes; it writes the
    inspected error to [console.error]; after the calls of the failed
    attempt its only call is the reply "Fail to resolve file.", quoting the
    message and not to be sent if the message is gone; no button is sent and
    nothing goes to the audit channel. *)
Theorem onMessage_reports_failure s e ctx w file err :
  includes (enableGroups e) (chat_id (ctx_message ctx)) = true ->
  getFileIds (ctx_message ctx) = Some file ->
  completion (processFile (module_at s) e (file_id (file_obj file)) w) = Thrown err ->
  let r := onMessage (module_at s) e ctx w in
  completion r = Normal tt
  /\ external (calls r)
     = external (calls (processFile (module_at s) e (file_id (file_obj file)) w))
       ++ [SendMessage (JNum (chat_id (ctx_message ctx))) "Fail to resolve file."
             {| reply_to_message_id := Some (message_id (ctx_message ctx));
                allow_sending_without_reply := Some false;
                parse_mode := None; reply_markup := None |}]
  /\ payloads (external (calls r)) = []
  /\ exists ln, Console Error ln ∈ calls r /\ contains (err_inspect err) ln.
Proof.
  intros Hinc Hfile Hthrow r. unfold r, onMessage. clear r.
  rewrite Hinc, Hfile. cbn [negb]. run.
  revert Hthrow. rewrite !processFile_run.
  cbn [getFileLink_result fetch_result randomInt_result with_lastThreadIds].
  unfold stored_name.
  cbn [getFileLink_result fetch_result randomInt_result with_lastThreadIds].
  destruct (getFileLink_result w (file_id (file_obj file))) as [e1|href].
  - cbn [completion]. intros [= ->]. run.
    split; [reflexivity|]. split; [finish_external|]. split.
    + finish_external.
    + eexists. split.
      * cbn [calls]. unfold written. cbn [suppressed].
        rewrite !elem_of_app. find_call.
      * unfold line. repeat apply contains_after. apply contains_self.
  - cbv zeta. destruct (fetch_result w href _) as [e2|].
    + cbn [completion]. intros [= ->]. run.
      split; [reflexivity|]. split; [finish_external|]. split.
      * finish_external.
      * eexists. split.
        -- cbn [calls]. unfold written. cbn [suppressed].
           rewrite !elem_of_app. find_call.
        -- unfold line. repeat apply contains_after. apply contains_self.
    + cbn [completion]. discriminate.
Qed.

Lemma onMessage_reports_failure_witness :
  let r := onMessage (module_at sample_dates) sample_env (video_message (-1001))
             (download_world None None) in
  completion r = Normal tt
  /\ external (calls r)
     = [GetFileLink "F";
        SendMessage (JNum (-1001)) "Fail to resolve file."
          {| reply_to_message_id := Some 9;
             allow_sending_without_reply := Some false;
             parse_mode := None; reply_markup := None |}].
Proof.
  intros r.
  destruct (onMessage_reports_failure sample_dates sample_env
              (video_message (-1001)) (download_world None None)
              {| file_type := video; file_obj := variant "F" (Some 1000) |}
              expired eq_refl eq_refl eq_refl) as (Hc & Hx & _).
  split; [exact Hc | exact Hx].
Defined.

(** X10. The message handler never throws, and a message that carries none
    of the six kinds of file makes it ask nothing of the outside, in an
    enabled chat as in any other. *)
Theorem onMessage_completes s e ctx w :
  completion (onMessage (module_at s) e ctx w) = Normal tt
  /\ (getFileIds (ctx_message ctx) = None ->
      external (calls (onMessage (module_at s) e ctx w)) = []).
Proof.
  unfold onMessage.
  destruct (includes (enableGroups e) (chat_id (ctx_message ctx))); cbn [negb].
  - destruct (getFileIds (ctx_message ctx)) as [file|].
    + run. rewrite processFile_run. run.
      destruct (getFileLink_result w _) as [e1|href]; run.
      * split; [reflexivity | discriminate].
      * cbv zeta. destruct (fetch_result w href _) as [e2|]; run;
          (split; [reflexivity | discriminate]).
    + run. split; [reflexivity | intros _; finish_external].
  - run. split; [reflexivity | intros _; finish_external].
Qed.

(** ** The pattern of the file names *)

Lemma strip_prefix_app (p s : string) : strip_prefix p (p +:+ s) = Some s.
Proof.
  induction p as [|c p IH]; [reflexivity|].
  rewrite StringFacts.append_cons. cbn [strip_prefix].
  unfold char_eqb. now rewrite Ascii.eqb_refl.
Qed.

Lemma skip_chars_app (p : ascii -> bool) (h : string) :
  forall (c : ascii) (r : string) (seen : bool),
    all_chars p h = true -> p c = false ->
    skip_chars p (h +:+ String c r) seen
    = (seen || negb (bool_decide (h = "")), String c r).
Proof.
  induction h as [|x h IH]; intros c r seen Hh Hc.
  - cbn [skip_chars String.append]. change ("" +:+ String c r) with (String c r).
    cbn [skip_chars]. rewrite Hc. now rewrite orb_false_r.
  - rewrite StringFacts.append_cons. cbn [skip_chars all_chars] in *.
    apply andb_true_iff in Hh as [Hx Hh]. rewrite Hx, (IH c r true Hh Hc).
    now rewrite orb_true_r.
Qed.

Lemma skip_chars_split (p : ascii -> bool) (s : string) :
  forall seen : bool,
  exists h rest,
    s = h +:+ rest
    /\ all_chars p h = true
    /\ skip_chars p s seen = (seen || negb (bool_decide (h = "")), rest).
Proof.
  induction s as [|x s IH]; intros seen.
  - exists "", "". repeat split. cbn. now rewrite orb_false_r.
  - cbn [skip_chars]. destruct (p x) eqn:Hx.
    + destruct (IH true) as (h & rest & -> & Hh & Hs).
      exists (String x h), rest. rewrite Hs. cbn [all_chars]. rewrite Hx, Hh.
      repeat split. now rewrite orb_true_r.
    + exists "", (String x s). repeat split. cbn. now rewrite orb_false_r.
Qed.

Lemma is_file_name_iff (f : string) :
  is_file_name f = true
  <-> exists h ext,
        f = h +:+ "." +:+ ext
        /\ h <> "" /\ all_chars is_hex h = true
        /\ ext <> "" /\ all_chars is_lower ext = true.
Proof.
  unfold is_file_name. split.
  - destruct (skip_chars_split is_hex f false) as (h & rest & -> & Hh & ->).
    cbn [orb]. destruct (bool_decide (h = "")) eqn:Hnil; [discriminate|].
    cbn [negb]. destruct rest as [|c ext]; [discriminate|].
    intros H. apply andb_true_iff in H as [H Hlow].
    apply andb_true_iff in H as [Hdot Hext].
    apply Ascii.eqb_eq in Hdot. subst c.
    exists h, ext. repeat split; try assumption.
    + now apply bool_decide_eq_false in Hnil.
    + apply negb_true_iff, bool_decide_eq_false in Hext. exact Hext.
  - intros (h & ext & -> & Hne & Hh & Hext & Hlow).
    change ("." +:+ ext) with (String "." ext).
    rewrite (skip_chars_app is_hex h "." ext false Hh eq_refl).
    rewrite (bool_decide_eq_false_2 _ Hne). cbn [orb negb].
    rewrite (bool_decide_eq_false_2 _ Hext), Hlow. reflexivity.
Qed.

(** X11. The test the actions make on a file name is the pattern
    [[0-9a-f]+\.[a-z]+] anchored at both ends: a name passes exactly when it
    is one or more lowercase hexadecimal digits, a dot, and one or more
    lowercase letters. *)
Theorem file_name_pattern (f : string) :
  is_file_name f = true
  <-> exists h ext,
        f = h +:+ "." +:+ ext
        /\ h <> "" /\ all_chars is_hex h = true
        /\ ext <> "" /\ all_chars is_lower ext = true.
Proof. exact (is_file_name_iff f). Qed.

(** X12. A stored name whose extension is a dot and lowercase letters comes
    back from its buttons: the payload [exist:<name>] is matched by the exist
    action and not by the remove action, the payload [remove:<name>] by the
    remove action and not by the exist action, each with [<name>] as the
    file. *)
Theorem lettered_names_are_routed (n : Z) (ext : string) :
  16 ^ 8 <= n < 16 ^ 9 ->
  ext <> "" -> all_chars is_lower ext = true ->
  let name := toString16 n +:+ "." +:+ ext in
  match_action "exist" ("exist:" +:+ name) = Some name
  /\ match_action "remove" ("remove:" +:+ name) = Some name
  /\ match_action "remove" ("exist:" +:+ name) = None
  /\ match_action "exist" ("remove:" +:+ name) = None.
Proof.
  intros Hn Hext Hlow name.
  destruct (toString16_nine n Hn) as [Hlen Hhex].
  assert (Hname : is_file_name name = true).
  { apply is_file_name_iff. exists (toString16 n), ext.
    repeat split; try assumption.
    intros Hnil. rewrite Hnil in Hlen. discriminate Hlen. }
  unfold match_action.
  change ("exist" +:+ ":") with "exist:". change ("remove" +:+ ":") with "remove:".
  rewrite !strip_prefix_app, Hname. repeat split.
Qed.

Lemma lettered_names_are_routed_witness :
  match_action "exist" ("exist:" +:+ toString16 (16 ^ 8) +:+ "." +:+ "jpg")
  = Some (toString16 (16 ^ 8) +:+ "." +:+ "jpg")
  /\ match_action "remove" ("remove:" +:+ toString16 (16 ^ 8) +:+ "." +:+ "jpg")
     = Some (toString16 (16 ^ 8) +:+ "." +:+ "jpg").
Proof.
  destruct (lettered_names_are_routed (16 ^ 8) "jpg") as (H1 & H2 & _).
  - lia.
  - discriminate.
  - reflexivity.
  - split; [exact H1 | exact H2].
Defined.

(** ** The callback handlers *)

Lemma onRemove_without_message_run s e cq file w :
  cq_message cq = None ->
  completion (onRemove (module_at s) e cq file w) = Normal tt
  /\ external (calls (onRemove (module_at s) e cq file w))
     = [AnswerCbQuery "Internal error." no_cache].
Proof.
  intros H. unfold onRemove. rewrite H. run. split; finish_external.
Qed.

(** The exist handler: it throws before its first log line when the message
    of the query does not name its sender, and otherwise completes with the
    calls of [exist_calls]. *)
Lemma onExist_external s e cq file w :
  if has_sender cq then
    completion (onExist (module_at s) e cq file w) = Normal tt
    /\ external (calls (onExist (module_at s) e cq file w)) = exist_calls e file w
  else
    onExist (module_at s) e cq file w
    = mkRun (Thrown TypeError_id)
        (with_lastThreadIds
           (<["onAction:exist" := next_id "onAction:exist" w]> (lastThreadIds w)) w)
        [].
Proof.
  unfold has_sender, onExist, exist_calls.
  destruct (cq_message cq) as [m|]; [destruct (from_id m) as [i|]|]; run;
    try reflexivity.
  all: destruct (access_result w (path_join (savePath e) file) R_OK) as [err|];
    run; [destruct (bool_decide (err_code err = Some "ENOENT")); run|];
    split; finish_external.
Qed.

Lemma onCallbackQuery_external s e cq w :
  completion (onCallbackQuery (module_at s) e cq w) = Normal tt
  /\ external (calls (onCallbackQuery (module_at s) e cq w)) = callback_calls e cq w.
Proof.
  unfold onCallbackQuery, callback_calls.
  destruct (match_action "exist" (cq_data cq)) as [file|].
  - pose proof (onExist_external s e cq file w) as H.
    unfold Eff.try_catch. destruct (has_sender cq).
    + destruct H as [Hc Hx].
      destruct (onExist (module_at s) e cq file w) as [c w1 es].
      cbn [completion calls] in *. subst c. now split.
    + rewrite H. run. split; finish_external.
  - destruct (match_action "remove" (cq_data cq)) as [file|].
    + unfold Eff.try_catch. destruct (cq_message cq) as [message|] eqn:Hm.
      * destruct (onRemove_external s e cq message file w Hm) as [Hc Hx].
        destruct (onRemove (module_at s) e cq file w) as [c w1 es].
        cbn [completion calls] in *. subst c. now split.
      * destruct (onRemove_without_message_run s e cq file w Hm) as [Hc Hx].
        destruct (onRemove (module_at s) e cq file w) as [c w1 es].
        cbn [completion calls] in *. subst c. now split.
    + run. now split.
Qed.

Lemma match_action_file (verb data file : string) :
  match_action verb data = Some file -> is_file_name file = true.
Proof.
  unfold match_action. destruct (strip_prefix _ data) as [f|]; [|discriminate].
  destruct (is_file_name f) eqn:Hf; [|discriminate]. now intros [= <-].
Qed.

Lemma file_name_no_slash (f : string) :
  is_file_name f = true -> all_chars not_slash f = true.
Proof.
  intros H. apply is_file_name_iff in H as (h & ext & -> & _ & Hh & _ & Hl).
  rewrite all_chars_app. change ("." +:+ ext) with (String "." ext).
  cbn [all_chars]. change (not_slash ".") with true. cbn [andb].
  apply andb_true_iff. split.
  - apply (all_chars_impl is_hex); [|exact Hh].
    intros c. destruct c as [[] [] [] [] [] [] [] []]; intros Hc;
      try discriminate Hc; reflexivity.
  - apply (all_chars_impl is_lower); [|exact Hl].
    intros c. destruct c as [[] [] [] [] [] [] [] []]; intros Hc;
      try discriminate Hc; reflexivity.
Qed.

Lemma in_external (ev : Event) (es : list Event) :
  ev ∈ external es -> ev ∈ es.
Proof.
  intros H. apply list_elem_of_In, List.filter_In in H as [H _].
  now apply list_elem_of_In.
Qed.

Lemma console_or_external (ev : Event) (es : list Event) :
  ev ∈ es -> is_console ev = true \/ ev ∈ external es.
Proof.
  intros H. destruct (is_console ev) eqn:Hc; [now left|].
  right. now apply external_elem.
Qed.

Lemma callback_calls_safe e cq w ev :
  ev ∈ callback_calls e cq w -> callback_safe e ev.
Proof.
  unfold callback_calls.
  destruct (match_action "exist" (cq_data cq)) as [file|] eqn:He.
  - pose proof (match_action_file _ _ _ He) as Hf.
    pose proof (file_name_no_slash _ Hf) as Hs.
    destruct (has_sender cq); [|intros H; inversion H].
    unfold exist_calls.
    destruct (access_result w _ R_OK) as [err|];
      [destruct (bool_decide _)|]; intros H;
      repeat (apply elem_of_cons in H as [->|H]); try (now inversion H);
      cbn; eauto.
  - destruct (match_action "remove" (cq_data cq)) as [file|] eqn:Hr;
      [|intros H; inversion H].
    pose proof (match_action_file _ _ _ Hr) as Hf.
    pose proof (file_name_no_slash _ Hf) as Hs.
    destruct (cq_message cq) as [message|].
    + unfold remove_calls, notice.
      destruct (access_result w _ _) as [err|];
        [destruct (bool_decide _)|destruct (rm_result w _)];
        try destruct (_ <? _); intros H;
        repeat (apply elem_of_cons in H as [->|H]); try (now inversion H);
        cbn; eauto.
    + intros H. apply list_elem_of_singleton in H. now subst.
Qed.

(** X13. Whatever the payload of a callback query, the dispatcher probes
    and removes only files of the save directory whose name passes the
    pattern of the actions, a name without any slash; and it never resolves a
    link, downloads, or sends a message. *)
Theorem callbacks_stay_in_the_save_directory s e cq w :
  Forall (callback_safe e) (calls (onCallbackQuery (module_at s) e cq w)).
Proof.
  apply Forall_forall. intros ev Hin.
  destruct (console_or_external _ _ Hin) as [Hc|Hx].
  - destruct ev; try discriminate Hc. exact I.
  - rewrite (proj2 (onCallbackQuery_external s e cq w)) in Hx.
    now apply callback_calls_safe in Hx.
Qed.

Lemma strip_prefix_inv (p : string) :
  forall s r : string, strip_prefix p s = Some r -> s = p +:+ r.
Proof.
  induction p as [|a p IH]; intros s r H.
  - cbn in H. now injection H as ->.
  - destruct s as [|b s]; [discriminate H|]. cbn [strip_prefix] in H.
    destruct (char_eqb a b) eqn:Hab; [|discriminate H].
    apply Ascii.eqb_eq in Hab. subst b.
    rewrite StringFacts.append_cons. f_equal. now apply IH.
Qed.

Lemma match_action_inv (verb data file : string) :
  match_action verb data = Some file ->
  data = verb +:+ ":" +:+ file /\ is_file_name file = true.
Proof.
  intros H. split; [|exact (match_action_file _ _ _ H)].
  unfold match_action in H.
  destruct (strip_prefix (verb +:+ ":") data) as [f|] eqn:Hs; [|discriminate H].
  destruct (is_file_name f); [|discriminate H]. injection H as ->.
  apply strip_prefix_inv in Hs. now rewrite Hs, StringFacts.append_assoc.
Qed.

(** X14. A payload that is not [exist:] or [remove:] followed by a name
    passing the pattern runs no handler: nothing is written, no thread number
    is used, no call is made, the world is left as it was. *)
Theorem unmatched_payload_is_ignored lg e cq w :
  (forall verb f, verb = "exist" \/ verb = "remove" -> is_file_name f = true ->
                  cq_data cq <> verb +:+ ":" +:+ f) ->
  onCallbackQuery lg e cq w = mkRun (Normal tt) w [].
Proof.
  intros H. unfold onCallbackQuery.
  destruct (match_action "exist" (cq_data cq)) as [f|] eqn:He.
  { apply match_action_inv in He as [Hd Hf].
    now destruct (H "exist" f (or_introl eq_refl) Hf). }
  destruct (match_action "remove" (cq_data cq)) as [f|] eqn:Hr.
  { apply match_action_inv in Hr as [Hd Hf].
    now destruct (H "remove" f (or_intror eq_refl) Hf). }
  reflexivity.
Qed.

Lemma unmatched_payload_is_ignored_witness :
  onCallbackQuery (module_at sample_dates) sample_env
    (press None "remove:../100000000.jpg") (sample_world None None "")
  = mkRun (Normal tt) (sample_world None None "") [].
Proof.
  apply unmatched_payload_is_ignored.
  intros verb f [-> | ->] Hf Hd.
  - discriminate Hd.
  - change ("remove" +:+ ":" +:+ f) with ("remove:" +:+ f) in Hd.
    change (cq_data (press None "remove:../100000000.jpg"))
      with ("remove:" +:+ "../100000000.jpg") in Hd.
    assert (f = "../100000000.jpg") as -> by (now injection Hd).
    discriminate Hf.
Defined.

(** X15. A press of an exist button on a message that names no sender: the
    handler throws while composing its first log line; the dispatcher
    catches the error and writes it to [console.error]; the file is not
    probed and the press is not acknowledged, though a thread number was
    used. *)
Theorem exist_press_without_sender_is_dropped s e cq w file m :
  match_action "exist" (cq_data cq) = Some file ->
  cq_message cq = Some m -> from_id m = None ->
  let r := onCallbackQuery (module_at s) e cq w in
  completion r = Normal tt
  /\ external (calls r) = []
  /\ Console Error (line s Error "main" (err_inspect TypeError_id)) ∈ calls r
  /\ lastThreadIds (final r) !! "onAction:exist"
     = Some (next_id "onAction:exist" w).
Proof.
  intros He Hm Hf r.
  pose proof (onExist_external s e cq file w) as Hrun.
  unfold has_sender in Hrun. rewrite Hm, Hf in Hrun.
  unfold r, onCallbackQuery. rewrite He. unfold Eff.try_catch. rewrite Hrun.
  run. cbn [completion calls final lastThreadIds with_lastThreadIds app].
  split; [reflexivity|]. split; [apply external_written|]. split.
  - unfold written. cbn [suppressed]. apply list_elem_of_here.
  - apply lookup_insert_eq.
Qed.

Lemma exist_press_without_sender_is_dropped_witness :
  external (calls (onCallbackQuery (module_at sample_dates) sample_env
                     (press (Some anonymous_post) "exist:100000000.jpg")
                     (sample_world None None "")))
  = [].
Proof.
  exact (proj1 (proj2 (exist_press_without_sender_is_dropped
                         sample_dates sample_env
                         (press (Some anonymous_post) "exist:100000000.jpg")
                         (sample_world None None "") "100000000.jpg"
                         anonymous_post eq_refl eq_refl eq_refl))).
Defined.

(** X16. The exist handler only looks: whatever the query, the file and
    the answers of the outside, each of its calls is a line on the console,
    a probe for read access, or an acknowledgment with cache time 0; it never
    removes, downloads, sends, edits or deletes. *)
Theorem onExist_only_looks s e cq file w :
  Forall only_looks (calls (onExist (module_at s) e cq file w)).
Proof.
  pose proof (onExist_external s e cq file w) as H.
  destruct (has_sender cq).
  - destruct H as [_ Hx]. apply Forall_forall. intros ev Hin.
    destruct (console_or_external _ _ Hin) as [Hc|Hin'].
    + destruct ev; try discriminate Hc. exact I.
    + rewrite Hx in Hin'. unfold exist_calls in Hin'.
      destruct (access_result w _ R_OK) as [err|];
        [destruct (bool_decide _)|];
        repeat (apply elem_of_cons in Hin' as [->|Hin']);
        try (now inversion Hin'); reflexivity.
  - rewrite H. constructor.
Qed.

(** X17. A press of a remove button on a message at most 48 hours old, when
    the probe and the removal succeed: after them the handler deletes the
    message it was pressed on, by its chat and its identifier, and
    acknowledges "Delete <f> success." as an alert cached for 3600 seconds;
    the removal is announced on the main logger. *)
Theorem onRemove_deletes_recent_broadcast s e cq message file w :
  cq_message cq = Some message ->
  access_result w (path_join (savePath e) file) (Z.lor R_OK W_OK) = None ->
  rm_result w (path_join (savePath e) file) = None ->
  getTime (clock w (clock_reads w)) - 48 * 3600 * 1000 <= date message * 1000 ->
  let r := onRemove (module_at s) e cq file w in
  external (calls r)
  = [FsAccess (path_join (savePath e) file) 6;
     FsRm (path_join (savePath e) file);
     DeleteMessage (JNum (chat_id message)) (message_id message);
     AnswerCbQuery ("Delete " +:+ file +:+ " success.")
       (Some {| show_alert := Some true; cache_time := Some 3600 |})]
  /\ Console Info (line s Info "main" ("file " +:+ file +:+ " is removed."))
       ∈ calls r.
Proof.
  intros Hm Ha Hr Hrecent r. unfold r, onRemove. clear r.
  rewrite Hm. run. rewrite Ha. run. rewrite Hr. run.
  destruct (date message * 1000 <? _) eqn:Hold; [apply Z.ltb_lt in Hold; lia|].
  run. split; [finish_external|].
  cbn [calls]. unfold written. cbn [suppressed]. rewrite !elem_of_app. find_call.
Qed.

Lemma onRemove_deletes_recent_broadcast_witness :
  external (calls (onRemove (module_at sample_dates) sample_env
                     (press (Some (broadcast 1700172000)) "remove:100000000.jpg")
                     "100000000.jpg" (sample_world None None "")))
  = [FsAccess (path_join "/data" "100000000.jpg") 6;
     FsRm (path_join "/data" "100000000.jpg");
     DeleteMessage (JNum (-1001)) 7;
     AnswerCbQuery "Delete 100000000.jpg success."
       (Some {| show_alert := Some true; cache_time := Some 3600 |})].
Proof.
  refine (proj1 (onRemove_deletes_recent_broadcast sample_dates sample_env
                   (press (Some (broadcast 1700172000)) "remove:100000000.jpg")
                   (broadcast 1700172000) "100000000.jpg"
                   (sample_world None None "") eq_refl eq_refl eq_refl _)).
  cbn. lia.
Defined.

(** X18. A press of a remove button when the probe succeeds and the removal
    fails: the handler writes the inspected error to [console.error] and
    acknowledges "Fail to resolve file <f> ." without any option (no cache
    time, no alert); the message is neither edited nor deleted. *)
Theorem onRemove_reports_failed_removal s e cq message file w err :
  cq_message cq = Some message ->
  access_result w (path_join (savePath e) file) (Z.lor R_OK W_OK) = None ->
  rm_result w (path_join (savePath e) file) = Some err ->
  let r := onRemove (module_at s) e cq file w in
  completion r = Normal tt
  /\ external (calls r)
     = [FsAccess (path_join (savePath e) file) 6;
        FsRm (path_join (savePath e) file);
        AnswerCbQuery ("Fail to resolve file " +:+ file +:+ " .") None]
  /\ exists ln, Console Error ln ∈ calls r /\ contains (err_inspect err) ln.
Proof.
  intros Hm Ha Hr r. unfold r, onRemove. clear r.
  rewrite Hm. run. rewrite Ha. run. rewrite Hr. run.
  split; [reflexivity|]. split; [finish_external|].
  eexists. split.
  - cbn [calls]. unfold written. cbn [suppressed]. rewrite !elem_of_app. find_call.
  - unfold line. repeat apply contains_after. apply contains_self.
Qed.

Lemma onRemove_reports_failed_removal_witness :
  external (calls (onRemove (module_at sample_dates) sample_env
                     (press (Some (broadcast 1700172000)) "remove:100000000.jpg")
                     "100000000.jpg" (sample_world None (Some EACCES) "")))
  = [FsAccess (path_join "/data" "100000000.jpg") 6;
     FsRm (path_join "/data" "100000000.jpg");
     AnswerCbQuery "Fail to resolve file 100000000.jpg ." None].
Proof.
  exact (proj1 (proj2 (onRemove_reports_failed_removal sample_dates sample_env
                         (press (Some (broadcast 1700172000))
                            "remove:100000000.jpg")
                         (broadcast 1700172000) "100000000.jpg"
                         (sample_world None (Some EACCES) "") EACCES
                         eq_refl eq_refl eq_refl))).
Defined.

(** ** escape *)

Lemma escape_char_no_angle (c : ascii) : all_chars not_angle (escape_char c) = true.
Proof.
  unfold escape_char.
  destruct (char_eqb c "&"); [reflexivity|].
  destruct (char_eqb c "<") eqn:Hlt; [reflexivity|].
  destruct (char_eqb c ">") eqn:Hgt; [reflexivity|].
  cbn [all_chars]. unfold not_angle. now rewrite Hlt, Hgt.
Qed.

(** X19. No interpolated value can open or close a tag: what [escape] puts
    in place of a value holds neither [<] nor [>], so that the tags of a
    composed text are those of the literal parts of its template. *)
Theorem escaped_value_has_no_angle_bracket (s : string) :
  all_chars not_angle (escape_value s) = true.
Proof.
  rewrite escape_value_spec. induction s as [|c r IH]; [reflexivity|].
  cbn [escape_spec]. now rewrite all_chars_app, escape_char_no_angle, IH.
Qed.

(** ** Configuration *)

(** X20. The [domain] constant always starts with a scheme: a DOMAIN that
    starts with [http://] or [https://] is kept as it is, any other gets
    [https://] in front. *)
Theorem domain_has_a_scheme (e : Env) :
  starts_with "http://" (domain e) || starts_with "https://" (domain e) = true
  /\ domain e
     = if starts_with "http://" (DOMAIN e) || starts_with "https://" (DOMAIN e)
       then DOMAIN e
       else "https://" +:+ DOMAIN e.
Proof.
  unfold domain, starts_with.
  destruct (strip_prefix "http://" (DOMAIN e)) eqn:H1;
    destruct (strip_prefix "https://" (DOMAIN e)) eqn:H2;
    cbn [orb]; rewrite ?H1, ?H2; cbn [orb]; split; reflexivity.
Qed.

Lemma map_indexed_lookup {A B} (f : A -> Z -> B) (xs : list A) :
  forall (k : Z) (i : nat),
    map_indexed f k xs !! i = (fun x => f x (k + Z.of_nat i)) <$> xs !! i.
Proof.
  induction xs as [|x r IH]; intros k i; [reflexivity|].
  destruct i as [|i]; cbn [map_indexed].
  - cbn. now rewrite Z.add_0_r.
  - cbn [lookup list_lookup]. rewrite IH.
    replace (k + 1 + Z.of_nat i) with (k + Z.of_nat (S i)) by lia. reflexivity.
Qed.

Lemma parseInt_large_radix (input : string) (radix : Z) :
  36 < radix < 2 ^ 31 -> parseInt input radix = None.
Proof.
  intros H. unfold parseInt.
  destruct (strip_sign (trim_start input)) as [sign body].
  assert (HR : ToInt32 radix = radix).
  { unfold ToInt32. rewrite Z.mod_small; lia. }
  rewrite HR.
  replace (radix =? 0) with false by (symmetry; apply Z.eqb_neq; lia).
  replace (36 <? radix) with true by (symmetry; apply Z.ltb_lt; lia).
  cbn [negb andb]. now rewrite orb_true_r.
Qed.

(** X21. Whatever ENABLE_GROUPS holds, its second entry is read as NaN, and
    so is every entry from the 38th on (of an array below 2^31 entries):
    [parseInt] takes the position of the entry for its radix. No chat is ever
    enabled by those entries. *)
Theorem entries_read_with_a_bad_radix_are_NaN (e : Env) (i : nat) (x : option Z) :
  enableGroups e !! i = Some x ->
  i = 1%nat \/ 37 <= Z.of_nat i < 2 ^ 31 ->
  x = None.
Proof.
  unfold enableGroups, Array_map. rewrite map_indexed_lookup.
  destruct (split "," (ENABLE_GROUPS e) !! i) as [entry|]; [|discriminate].
  cbn. intros [= <-] [-> | Hi].
  - apply parseInt_radix_1.
  - apply parseInt_large_radix. lia.
Qed.

Lemma entries_read_with_a_bad_radix_are_NaN_witness :
  enableGroups sample_env !! 1%nat = Some None.
Proof.
  assert (H : exists x, enableGroups sample_env !! 1%nat = Some x)
    by (eexists; reflexivity).
  destruct H as [x Hx]. rewrite Hx. f_equal.
  apply (entries_read_with_a_bad_radix_are_NaN sample_env 1 x Hx). now left.
Defined.

(** X22. With a single identifier in ENABLE_GROUPS, of absolute value
    below 2^53 and written in decimal as JavaScript prints an integer, the
    allow-list holds exactly that identifier: the chat is enabled and no
    other is. (From 2^53 on [parseInt] rounds to a double, which the
    integers of this development do not follow.) *)
Theorem single_group_is_read_back (e : Env) (n : Z) :
  Z.abs n < 2 ^ 53 ->
  ENABLE_GROUPS e = pretty n ->
  enableGroups e = [Some n]
  /\ forall chat, includes (enableGroups e) chat = true <-> chat = n.
Proof.
  intros _ H. unfold enableGroups, Array_map.
  assert (Hs : split "," (pretty n) = [pretty n]).
  { apply split_without_sep. apply (all_chars_impl is_decimal); [|apply pretty_decimal].
    intros c Hc. now rewrite (proj1 (decimal_is_plain c Hc)). }
  rewrite H, Hs. cbn [map_indexed]. rewrite parseInt_pretty by now left.
  split; [reflexivity|]. intros chat. cbn [includes existsb].
  rewrite orb_false_r, bool_decide_eq_true. split; [now intros [= ->] | now intros ->].
Qed.

Lemma single_group_is_read_back_witness :
  enableGroups {| BOT_TOKEN := "1:x"; FILE_SAVE_PATH := "/data";
                  DOMAIN := "files.example.org";
                  ENABLE_GROUPS := pretty (-1001234567890);
                  INFO_CHANNEL := "@audit" |}
  = [Some (-1001234567890)].
Proof.
  exact (proj1 (single_group_is_read_back
                  {| BOT_TOKEN := "1:x"; FILE_SAVE_PATH := "/data";
                     DOMAIN := "files.example.org";
                     ENABLE_GROUPS := pretty (-1001234567890);
                     INFO_CHANNEL := "@audit" |}
                  (-1001234567890) eq_refl eq_refl)).
Defined.

(** ** The notification *)

Lemma escape_spec_plain (s : string) :
  all_chars (fun c => negb (char_eqb c "&") && not_angle c) s = true ->
  escape_spec s = s.
Proof.
  induction s as [|c r IH]; [reflexivity|].
  cbn [all_chars escape_spec]. intros H. apply andb_true_iff in H as [Hc Hr].
  apply andb_true_iff in Hc as [Hamp Hang]. apply andb_true_iff in Hang as [Hlt Hgt].
  apply negb_true_iff in Hamp, Hlt, Hgt.
  unfold escape_char. now rewrite Hamp, Hlt, Hgt, (IH Hr).
Qed.

Lemma escape_spec_pretty (z : Z) : escape_spec (pretty z) = pretty z.
Proof.
  apply escape_spec_plain. apply (all_chars_impl is_decimal); [|apply pretty_decimal].
  intros c. destruct c as [[] [] [] [] [] [] [] []]; intros Hc;
    try discriminate Hc; reflexivity.
Qed.

Lemma escape_holes (f0 : string) (holes : list (jsval * string)) :
  escape (f0 :: holes.*2) (holes.*1) = f0 +:+ fill holes.
Proof. unfold escape. now rewrite escape_loop_fill. Qed.

(** X26. The text of a notification is five lines: the sender and the chat
    printed as they are, the two identifiers of the file between [<code>]
    tags, the address of the file, made of the domain, [/files/] and the
    stored name, and the JSON of the file between [<code>] tags; each value
    is escaped, and the numbers, which hold nothing to escape, are
    unchanged. *)
Theorem notification_text (e : Env) (ctx : MessageCtx) (file : File) (name : string) :
  notification e ctx file name
  = join (String (ascii_of_N 10) "")
      [ "from: " +:+ pretty (ctx_from_id ctx);
        "to: " +:+ pretty (chat_id (ctx_message ctx));
        "file: <code>" +:+ escape_spec (file_id (file_obj file))
          +:+ "</code> (unique: <code>"
          +:+ escape_spec (file_unique_id (file_obj file)) +:+ "</code>)";
        "url: " +:+ escape_spec (domain e) +:+ "/files/" +:+ escape_spec name;
        "raw: <code>" +:+ escape_spec (JSON_stringify file) +:+ "</code>" ].
Proof.
  unfold notification.
  pose proof (escape_holes "from: " [(JNum (ctx_from_id ctx), "")]) as H1.
  pose proof (escape_holes "to: " [(JNum (chat_id (ctx_message ctx)), "")]) as H2.
  pose proof (escape_holes "file: <code>"
                [(JStr (file_id (file_obj file)), "</code> (unique: <code>");
                 (JStr (file_unique_id (file_obj file)), "</code>)")]) as H3.
  pose proof (escape_holes "url: "
                [(JStr (domain e), "/files/"); (JStr name, "")]) as H4.
  pose proof (escape_holes "raw: <code>"
                [(JStr (JSON_stringify file), "</code>")]) as H5.
  cbn [fmap list_fmap fst snd] in H1, H2, H3, H4, H5.
  rewrite H1, H2, H3, H4, H5.
  cbn [fill js_String]. rewrite !escape_spec_pretty, !StringFacts.append_nil_r.
  reflexivity.
Qed.

(** X27. A message of a chat the allow-list does not include: the handler
    completes without asking anything of the outside, whatever the message
    carries; the thread number it took for its log lines is used. *)
Theorem disabled_chat_is_ignored s e ctx w :
  includes (enableGroups e) (chat_id (ctx_message ctx)) = false ->
  let r := onMessage (module_at s) e ctx w in
  completion r = Normal tt
  /\ external (calls r) = []
  /\ lastThreadIds (final r) !! "onMessage" = Some (next_id "onMessage" w).
Proof.
  intros H r. destruct (onMessage_not_enabled s e ctx w H) as [Hc Hx].
  split; [exact Hc|]. split; [exact Hx|].
  unfold r, onMessage. rewrite H. cbn [negb]. run.
  cbn [final lastThreadIds with_lastThreadIds]. apply lookup_insert_eq.
Qed.

Lemma disabled_chat_is_ignored_witness :
  external (calls (onMessage (module_at sample_dates) sample_env
                     (video_message (-1003)) (sample_world None None mp4_link)))
  = [].
Proof.
  exact (proj1 (proj2 (disabled_chat_is_ignored sample_dates sample_env
                         (video_message (-1003))
                         (sample_world None None mp4_link) eq_refl))).
Defined.

End BotMore.

(* ===================================================================== *)
(** * The start-up                                                         *)
(* ===================================================================== *)

Module StartupFacts.

Import Logger LoggerObs LoggerFacts Bot BotObs BotFacts Startup MoreObs PrettyFacts.

Lemma is_set_true (penv : gmap string string) (name : string) :
  is_set penv name = true ->
  exists c r, penv !! name = Some (String c r).
Proof.
  unfold is_set. destruct (penv !! name) as [[|c r]|]; try discriminate.
  intros _. now exists c, r.
Qed.

Lemma getEnv_set lg penv name nullOk w c r :
  penv !! name = Some (String c r) ->
  getEnv lg penv name nullOk w = mkRun (Normal (Found (String c r))) w [].
Proof. intros H. unfold getEnv. now rewrite H. Qed.

Lemma getEnv_unset s penv name w :
  is_set penv name = false ->
  getEnv (module_at s) penv name true w = mkRun (Normal Null) w []
  /\ getEnv (module_at s) penv name false w
     = mkRun (Normal (Exit 1)) w
         [Console Error
            (line s Error "main"
               ("process.env[ " +:+ JSON_stringify_string name +:+ " ] not found."))].
Proof.
  unfold is_set, getEnv. intros H.
  destruct (penv !! name) as [[|c r]|]; try discriminate H; split;
    try reflexivity; run; reflexivity.
Qed.

Lemma required_set {A} lg penv name (k : string -> M (option A)) w c r :
  penv !! name = Some (String c r) ->
  required lg penv name k w = k (String c r) w.
Proof.
  intros H. unfold required.
  cbv beta iota zeta delta [mbind M_bind Eff.bind].
  rewrite (getEnv_set _ _ _ _ _ _ _ H). now destruct (k (String c r) w).
Qed.

Lemma required_unset {A} s penv name (k : string -> M (option A)) w :
  is_set penv name = false ->
  required (module_at s) penv name k w
  = mkRun (Normal None) w
      [Console Error
         (line s Error "main"
            ("process.env[ " +:+ JSON_stringify_string name +:+ " ] not found."))].
Proof.
  intros H. unfold required.
  cbv beta iota zeta delta [mbind M_bind Eff.bind].
  rewrite (proj2 (getEnv_unset s penv name w H)). reflexivity.
Qed.

(** X23. When the five required variables are set and not empty, the
    start-up reads them without writing anything and the configuration holds
    their values. *)
Theorem readEnv_complete s penv w :
  Forall (fun name => is_set penv name = true) required_names ->
  exists env,
    readEnv (module_at s) penv w = mkRun (Normal (Some env)) w []
    /\ penv !! "BOT_TOKEN" = Some (BOT_TOKEN env)
    /\ penv !! "FILE_SAVE_PATH" = Some (FILE_SAVE_PATH env)
    /\ penv !! "DOMAIN" = Some (DOMAIN env)
    /\ penv !! "ENABLE_GROUPS" = Some (ENABLE_GROUPS env)
    /\ penv !! "INFO_CHANNEL" = Some (INFO_CHANNEL env).
Proof.
  intros H. unfold required_names in H.
  repeat match goal with
         | H : Forall _ (_ :: _) |- _ =>
             let H1 := fresh "Hset" in
             apply Forall_cons in H as [H1 H];
             apply is_set_true in H1 as (? & ? & H1)
         end.
  eexists. unfold readEnv.
  rewrite (required_set _ _ _ _ _ _ _ Hset).
  rewrite (required_set _ _ _ _ _ _ _ Hset0).
  rewrite (required_set _ _ _ _ _ _ _ Hset1).
  rewrite (required_set _ _ _ _ _ _ _ Hset2).
  rewrite (required_set _ _ _ _ _ _ _ Hset3).
  split; [reflexivity|]. cbn. repeat split; assumption.
Qed.

Lemma readEnv_complete_witness :
  exists env,
    readEnv (module_at sample_dates) full_penv (sample_world None None "")
    = mkRun (Normal (Some env)) (sample_world None None "") []
    /\ ENABLE_GROUPS env = "-1001234567890".
Proof.
  destruct (readEnv_complete sample_dates full_penv (sample_world None None ""))
    as (env & Hrun & _ & _ & _ & Hg & _).
  - unfold required_names. repeat constructor.
  - exists env. split; [exact Hrun|].
    assert (Hl : full_penv !! "ENABLE_GROUPS" = Some "-1001234567890")
      by reflexivity.
    rewrite Hl in Hg. now injection Hg.
Defined.

(** X24. When a required variable is unset or set to the empty string, and
    those before it in the order BOT_TOKEN, FILE_SAVE_PATH, DOMAIN,
    ENABLE_GROUPS, INFO_CHANNEL are set, the start-up writes one line to
    [console.error], naming that variable in quotes, and the process exits
    with status 1: the variables after it are not looked at. *)
Theorem readEnv_stops_at_first_missing s penv w (i : nat) (name : string) :
  required_names !! i = Some name ->
  Forall (fun other => is_set penv other = true) (take i required_names) ->
  is_set penv name = false ->
  getEnv (module_at s) penv name false w
  = mkRun (Normal (Exit 1)) w
      [Console Error
         (line s Error "main"
            ("process.env[ " +:+ (dq +:+ name +:+ dq) +:+ " ] not found."))]
  /\ readEnv (module_at s) penv w
     = mkRun (Normal None) w
         [Console Error
            (line s Error "main"
               ("process.env[ " +:+ (dq +:+ name +:+ dq) +:+ " ] not found."))].
Proof.
  intros Hi Hbefore Hname.
  assert (Hq : JSON_stringify_string name = dq +:+ name +:+ dq).
  { unfold required_names in Hi.
    do 5 (destruct i as [|i]; [injection Hi as <-; reflexivity|]).
    discriminate Hi. }
  rewrite <- Hq.
  split; [apply (getEnv_unset s penv name w Hname)|].
  unfold required_names in Hi, Hbefore. unfold readEnv.
  do 5 (destruct i as [|i];
        [injection Hi as <-; cbn [take] in Hbefore;
         repeat match goal with
                | H : Forall _ (_ :: _) |- _ =>
                    let H1 := fresh "Hset" in
                    apply Forall_cons in H as [H1 H];
                    apply is_set_true in H1 as (? & ? & H1);
                    rewrite (required_set _ _ _ _ _ _ _ H1)
                end;
         now apply required_unset|]).
  discriminate Hi.
Qed.

Lemma readEnv_stops_at_first_missing_witness :
  readEnv (module_at sample_dates) sample_penv (sample_world None None "")
  = mkRun (Normal None) (sample_world None None "")
      [Console Error
         (line sample_dates Error "main"
            ("process.env[ " +:+ (dq +:+ "DOMAIN" +:+ dq) +:+ " ] not found."))].
Proof.
  refine (proj2 (readEnv_stops_at_first_missing sample_dates sample_penv
                   (sample_world None None "") 2 "DOMAIN" eq_refl _ eq_refl)).
  cbn. repeat constructor.
Defined.

(** X25. The port the server listens on: 0 (an arbitrary free port) when
    PORT is unset or empty, and the number PORT holds when it is a decimal
    integer of absolute value below 2^53 (from where on [parseInt] rounds to
    a double); nothing is written and the process does not exit. *)
Theorem listenPort_default_and_decimal s penv w :
  (is_set penv "PORT" = false ->
   listenPort (module_at s) penv w = mkRun (Normal (Some 0)) w [])
  /\ (forall n, Z.abs n < 2 ^ 53 -> penv !! "PORT" = Some (pretty n) ->
                listenPort (module_at s) penv w = mkRun (Normal (Some n)) w []).
Proof.
  unfold listenPort. cbv beta iota zeta delta [mbind M_bind mret M_ret Eff.bind Eff.ret].
  split.
  - intros H. rewrite (proj1 (getEnv_unset s penv "PORT" w H)). reflexivity.
  - intros n _ H.
    assert (Hne : exists c r, pretty n = String c r).
    { destruct n as [|x|x].
      - now exists "0"%char, "".
      - destruct (pretty_pos_shape x) as (c & r & Hp & _). now exists c, r.
      - exists "-"%char, (pretty (Z.pos x)). reflexivity. }
    destruct Hne as (c & r & Hp). rewrite Hp in H.
    rewrite (getEnv_set _ _ _ _ _ _ _ H). cbn [app]. rewrite <- Hp.
    rewrite parseInt_pretty by now right. reflexivity.
Qed.

End StartupFacts.
